(** * Formatorbit bundled plugins: a shallow embedding and its properties

    The four bundled Python plugins of formatorbit are embedded here:

    - [crates/core/bundled-plugins/math_ext.py]       (module [MathExt])
    - [crates/core/bundled-plugins/custom_decoder.py] (module [CustomDecoder])
    - [bundled-plugins/checksums.py]                  (module [Checksums])
    - [bundled-plugins/crypto.py]                     (module [Crypto])

    The module [Py] holds the small part of the Python runtime the
    plugins rely on: exceptions, [int()] and [float()] coercions,
    strings as sequences of code points. *)

From Stdlib Require Import ZArith QArith List String Ascii Lia Bool.
From Stdlib Require Import Floats.SpecFloat.
From stdpp Require Import gmap strings.

Set Warnings "-register-all".
#[local] Open Scope Z_scope.

(* ===================================================================== *)
(** * The Python runtime the plugins use                                  *)
(* ===================================================================== *)

Module Py.

(** Exceptions the plugins can meet.  [OtherError] stands for an
    exception of any further class, one that is not a subclass of a
    class named here ([MemoryError], [ssl.SSLError] raised while
    reading, ...). *)
Inductive exn : Set :=
| ValueError | OverflowError | TypeError | AttributeError
| URLError | JSONDecodeError | UnicodeDecodeError | KeyError
| RecursionError | TimeoutError | HTTPException
| OtherError (class_name : string).

(** A computation either returns or raises. *)
Inductive result (A : Type) : Type :=
| Ret (a : A)
| Raise (e : exn).
Arguments Ret {A} a.
Arguments Raise {A} e.

Definition bind {A B} (c : result A) (k : A -> result B) : result B :=
  match c with
  | Ret a => k a
  | Raise e => Raise e
  end.

(** Python [float] is IEEE-754 binary64. *)
Definition prec : Z := 53.
Definition emax : Z := 1024.

(** The numeric arguments an expression function receives. *)
Inductive numeric : Set :=
| PyInt (z : Z)
| PyFloat (f : spec_float).

(** [int(f)] for a float: truncation toward zero; [nan] and the
    infinities raise.  For a finite [(-1)^s * m * 2^e], shifting the
    mantissa left by [e] (right when [e] is negative) truncates the
    magnitude. *)
Definition int_of_float (f : spec_float) : result Z :=
  match f with
  | S754_zero _ => Ret 0
  | S754_nan => Raise ValueError
  | S754_infinity _ => Raise OverflowError
  | S754_finite s m e => Ret (cond_Zopp s (Z.shiftl (Zpos m) e))
  end.

(** [int(x)] *)
Definition int (x : numeric) : result Z :=
  match x with
  | PyInt z => Ret z
  | PyFloat f => int_of_float f
  end.

(** [float(z)] for an int: correctly rounded (ties to even), and
    [OverflowError] when the integer is too large for a double. *)
Definition float_of_int (z : Z) : result spec_float :=
  match binary_normalize prec emax z 0 false with
  | S754_infinity _ => Raise OverflowError
  | f => Ret f
  end.

(** [float(x)] *)
Definition float (x : numeric) : result spec_float :=
  match x with
  | PyInt z => float_of_int z
  | PyFloat f => Ret f
  end.

(** Python [str]: a sequence of Unicode code points. *)
Definition str : Set := list Z.

Definition ord (a : ascii) : Z := Z.of_N (N_of_ascii a).

(** The [str] of an ASCII literal of the source. *)
Definition lit (s : string) : str := List.map ord (list_ascii_of_string s).

(** [range(lo, hi)] *)
Definition range (lo hi : Z) : list Z :=
  List.map (fun i => lo + Z.of_nat i) (seq 0 (Z.to_nat (hi - lo))).

End Py.

#[export] Instance result_bind : MBind Py.result :=
fun A B k c => Py.bind c k.
#[export] Instance result_ret : MRet Py.result := @Py.Ret.

(* ===================================================================== *)
(** * math_ext.py                                                         *)
(* ===================================================================== *)

Module MathExt.
Import Py.

(** [math.factorial]: [ValueError] on a negative argument. *)
Definition math_factorial (n : Z) : result Z :=
  if n <? 0 then Raise ValueError
  else Ret (Z.of_nat (fact (Z.to_nat n))).

(** [math.gcd] *)
Definition math_gcd (a b : Z) : Z := Z.gcd a b.

(** [math.sqrt]: [ValueError] ("math domain error") below zero,
    correctly rounded otherwise. *)
Definition math_sqrt (f : spec_float) : result spec_float :=
  match f with
  | S754_infinity true | S754_finite true _ _ => Raise ValueError
  | _ => Ret (SFsqrt prec emax f)
  end.

(** [0.5] *)
Definition half : spec_float := S754_finite false 4503599627370496 (-53).

(** [(1 + math.sqrt(5)) / 2]: the int operands are converted to float by
    [math.sqrt], by the float addition and by the float division. *)
Definition phi : result numeric :=
  five ← float_of_int 5;
  root ← math_sqrt five;
  one ← float_of_int 1;
  two ← float_of_int 2;
  Ret (PyFloat (SFdiv prec emax (SFadd prec emax one root) two)).

Section Libm.
(** The C library behind [math.log], [math.log10], [math.sin],
    [math.cos], [math.tan] and the float power operator. *)
Variables math_log math_log10 math_sin math_cos math_tan
  : spec_float -> result spec_float.
Variable float_pow : spec_float -> spec_float -> spec_float.

Definition factorial (n : numeric) : result numeric :=
  n ← int n;
  r ← math_factorial n;
  Ret (PyInt r).

(** The loop [for _ in range(k): a, b = b, a + b]. *)
Fixpoint fib_loop (k : nat) (a b : Z) : Z * Z :=
  match k with
  | O => (a, b)
  | S k' => fib_loop k' b (a + b)
  end.

Definition fibonacci (n : numeric) : result numeric :=
  n ← int n;
  if n <=? 1 then Ret (PyInt n)
  else Ret (PyInt (snd (fib_loop (Z.to_nat (n - 1)) 0 1))).

Definition gcd (a b : numeric) : result numeric :=
  a ← int a;
  b ← int b;
  Ret (PyInt (math_gcd a b)).

Definition lcm (a b : numeric) : result numeric :=
  a ← int a;
  b ← int b;
  if negb (a =? 0) && negb (b =? 0)
  then Ret (PyInt (Z.abs (a * b) / math_gcd a b))
  else Ret (PyInt 0).

(** [n ** 0.5] for an int [n]: the int is converted to float first. *)
Definition pow_half (n : Z) : result spec_float :=
  f ← float_of_int n;
  Ret (float_pow f half).

Definition is_prime (n : numeric) : result numeric :=
  n ← int n;
  if n <? 2 then Ret (PyInt 0)
  else
    r ← pow_half n;
    k ← int_of_float r;
    if existsb (fun i => n mod i =? 0) (range 2 (k + 1))
    then Ret (PyInt 0)
    else Ret (PyInt 1).

Definition sqrt (n : numeric) : result numeric :=
  f ← float n; r ← math_sqrt f; Ret (PyFloat r).

Definition log (n : numeric) : result numeric :=
  f ← float n; r ← math_log f; Ret (PyFloat r).

Definition log10 (n : numeric) : result numeric :=
  f ← float n; r ← math_log10 f; Ret (PyFloat r).

Definition sin (n : numeric) : result numeric :=
  f ← float n; r ← math_sin f; Ret (PyFloat r).

Definition cos (n : numeric) : result numeric :=
  f ← float n; r ← math_cos f; Ret (PyFloat r).

Definition tan (n : numeric) : result numeric :=
  f ← float n; r ← math_tan f; Ret (PyFloat r).

End Libm.

End MathExt.


(* ===================================================================== *)
(** * The [forb] value types the plugins import                           *)
(* ===================================================================== *)

Module CoreValue.
(** Modelled from the spec: [CoreValue], a tagged union over String,
    Bytes, Integer and further kinds (section 3); its declaration is
    not among the plugin sources.  The plugins construct
    [CoreValue.String] only. *)
Inductive t : Set :=
| String (s : Py.str)
| Bytes (b : list Byte.byte)
| Integer (z : Z).
End CoreValue.

(** Modelled from the spec: [Interpretation] (section 3), with the three
    fields a decoder passes to its constructor; the host adds the
    source decoder. *)
Record Interpretation : Set := mkInterpretation {
  value : CoreValue.t;
  confidence : Q;
  description : Py.str
}.

(* ===================================================================== *)
(** * custom_decoder.py                                                   *)
(* ===================================================================== *)

Module CustomDecoder.
Import Py.

(** [s.startswith(prefix)] *)
Fixpoint startswith (s prefix : str) : bool :=
  match prefix, s with
  | [], _ => true
  | _ :: _, [] => false
  | p :: prefix', c :: s' => (c =? p) && startswith s' prefix'
  end.

Definition decode_example (input_str : str) : list Interpretation :=
  let prefix := lit "EXAMPLE:" in
  if negb (startswith input_str prefix) then []
  else
    let content := drop (length prefix) input_str in
    [ {| value := CoreValue.String content;
         confidence := 0.95;
         description := lit "Example format: " ++ content |} ].

(** [string.ascii_letters] and [string.digits] *)
Definition ascii_letters : str :=
  lit "abcdefghijklmnopqrstuvwxyzABCDEFGHIJKLMNOPQRSTUVWXYZ".
Definition digits : str := lit "0123456789".

(** The set [valid_chars]; code point 34 is the double quote that ends
    the source literal. *)
Definition valid_chars : gset Z :=
  list_to_set (ascii_letters ++ digits ++ lit " .,!?'-" ++ [34]).

(** The nested function [rot13], one character at a time. *)
Definition rot13_char (c : Z) : Z :=
  if (ord "a" <=? c) && (c <=? ord "z")
  then (c - ord "a" + 13) mod 26 + ord "a"
  else if (ord "A" <=? c) && (c <=? ord "Z")
  then (c - ord "A" + 13) mod 26 + ord "A"
  else c.

Definition rot13 (s : str) : str := List.map rot13_char s.

Section Unicode.
(** [str.isalpha] above ASCII is decided by the Unicode character
    database (general categories Lu, Ll, Lt, Lm, Lo); within ASCII the
    alphabetic characters are exactly the 52 letters. *)
Variable unicode_isalpha : Z -> bool.

Definition isalpha (c : Z) : bool :=
  if c <? 128
  then ((65 <=? c) && (c <=? 90)) || ((97 <=? c) && (c <=? 122))
  else unicode_isalpha c.

(** [sum(1 for c in input_str if c.isalpha())] *)
Definition letter_count (input_str : str) : Z :=
  fold_right (fun c acc => if isalpha c then 1 + acc else acc) 0 input_str.

Definition decode_rot13 (input_str : str) : list Interpretation :=
  if letter_count input_str <? 3 then []
  else if negb (forallb (fun c => bool_decide (c ∈ valid_chars)) input_str)
  then []
  else
    let decoded := rot13 input_str in
    if bool_decide (decoded = input_str) then []
    else
      [ {| value := CoreValue.String decoded;
           confidence := 0.3;
           description := lit "ROT13 decoded: " ++ decoded |} ].

End Unicode.

End CustomDecoder.

(* ===================================================================== *)
(** * The host engine, as far as the plugins' contracts need it           *)
(* ===================================================================== *)

Module Engine.
Import Py.

(** A registered decoder: a function of the raw input alone. *)
Definition decoder : Set := str -> list Interpretation.

(** Modelled from the spec: the ranking of section 4.2, which is not
    among the plugin sources, as a stable insertion sort.  The new
    interpretation, which was emitted earlier than everything already
    ranked, goes in front of the first one whose confidence is not
    strictly higher. *)
Fixpoint insert_ranked (i : Interpretation) (l : list Interpretation)
  : list Interpretation :=
  match l with
  | [] => [i]
  | j :: l' =>
      if Qle_bool (confidence j) (confidence i) then i :: j :: l'
      else j :: insert_ranked i l'
  end.

(** Modelled from the spec: descending confidence, ties in emission
    order (section 4.2). *)
Definition rank (l : list Interpretation) : list Interpretation :=
  fold_right insert_ranked [] l.

(** Modelled from the spec: the host's decoder dispatch, which is not
    among the plugin sources.  Section 4.2: every registered decoder is
    invoked with the raw input, the emitted interpretations are
    concatenated in registration order and sorted by descending
    confidence, ties keeping registration order. *)
Definition dispatch (decoders : list decoder) (input : str)
  : list Interpretation :=
  rank (concat (List.map (fun d => d input) decoders)).

(** A registered expression function: its id, the arity read off the
    parameters of the Python [def], and the callable. *)
Record expr_func : Type := mkExprFunc {
  func_id : string;
  arity : nat;
  callable : list numeric -> result numeric
}.

(** A [def] with one parameter, applied to an argument list: Python
    itself raises [TypeError] on any other number of arguments. *)
Definition def1 (f : numeric -> result numeric) (args : list numeric)
  : result numeric :=
  match args with
  | [x] => f x
  | _ => Raise TypeError
  end.

(** The failures of section 7 that an expression call can end in. *)
Inductive eval_error : Set :=
| ArityMismatch
| DomainError
| PluginFault (e : exn).

(** Modelled from the spec: the host's expression function call, which
    is not among the plugin sources.  Section 4.5: the call fails with
    [ArityMismatch] if the argument count disagrees with the declared
    arity, and with [DomainError] if the inputs are outside the
    function's mathematically valid domain, which the [math] module
    signals by [ValueError]; any other exception is a plugin fault
    (section 7). *)
Definition call_function (f : expr_func) (args : list numeric)
  : eval_error + numeric :=
  if negb (length args =? arity f)%nat then inl ArityMismatch
  else
    match callable f args with
    | Ret v => inr v
    | Raise ValueError => inl DomainError
    | Raise e => inl (PluginFault e)
    end.

(** [@forb.expr_func("factorial", description="Calculate n!")] on
    [def factorial(n)]. *)
Definition factorial_entry : expr_func :=
  {| func_id := "factorial"; arity := 1; callable := def1 MathExt.factorial |}.

End Engine.


(* ===================================================================== *)
(** * checksums.py                                                        *)
(* ===================================================================== *)

Module Checksums.
Import Py.

(** The values a trait function can be handed. *)
Inductive object : Set :=
| PyBytes (b : list Byte.byte)
| PyStr (s : str)
| PyNum (n : numeric)
| PyNone.

(** [len(value)] *)
Definition len (b : list Byte.byte) : Z := Z.of_nat (length b).

(** One lower-case hexadecimal digit. *)
Definition hex_digit (d : Z) : Z :=
  if d <? 10 then ord "0" + d else ord "a" + (d - 10).

Fixpoint hex_digits (fuel : nat) (z : Z) (acc : str) : str :=
  match fuel with
  | O => acc
  | S fuel' =>
      if z =? 0 then acc
      else hex_digits fuel' (z / 16) (hex_digit (z mod 16) :: acc)
  end.

(** The format specification [08x] on a non-negative integer: lower-case
    hexadecimal, padded with zeros on the left to eight characters. *)
Definition format_08x (z : Z) : str :=
  let ds := hex_digits (Z.to_nat (Z.log2 z + 1)) z [] in
  replicate (8 - length ds) (ord "0") ++ ds.

Section Digests.
(** The digest functions of [zlib] and [hashlib]; the [hashlib] ones
    stand for [h(value).hexdigest()]. *)
Variable zlib_crc32 : list Byte.byte -> Z.
Variables hashlib_md5 hashlib_sha1 hashlib_sha256 hashlib_sha512
  : list Byte.byte -> str.
Variable hashlib_blake2b : list Byte.byte -> Z -> str.

Definition compute_crc32 (value : object) : option str :=
  match value with
  | PyBytes b =>
      if len b >? 10_000_000 then None
      else
        let crc := Z.land (zlib_crc32 b) 0xffffffff in
        Some (lit "crc32: " ++ format_08x crc)
  | _ => None
  end.

Definition compute_md5 (value : object) : option str :=
  match value with
  | PyBytes b =>
      if len b >? 10_000_000 then None
      else Some (lit "md5: " ++ hashlib_md5 b)
  | _ => None
  end.

Definition compute_sha1 (value : object) : option str :=
  match value with
  | PyBytes b =>
      if len b >? 10_000_000 then None
      else Some (lit "sha1: " ++ hashlib_sha1 b)
  | _ => None
  end.

Definition compute_sha256 (value : object) : option str :=
  match value with
  | PyBytes b =>
      if len b >? 1_000_000 then None
      else Some (lit "sha256: " ++ hashlib_sha256 b)
  | _ => None
  end.

Definition compute_sha512 (value : object) : option str :=
  match value with
  | PyBytes b =>
      if len b >? 1_000_000 then None
      else Some (lit "sha512: " ++ hashlib_sha512 b)
  | _ => None
  end.

Definition compute_blake2b (value : object) : option str :=
  match value with
  | PyBytes b =>
      if len b >? 1_000_000 then None
      else Some (lit "blake2b-256: " ++ hashlib_blake2b b 32)
  | _ => None
  end.

End Digests.

End Checksums.


(* ===================================================================== *)
(** * crypto.py                                                           *)
(* ===================================================================== *)

Module Crypto.
Import Py.

(** What [json.loads] can return; [JNull] is Python's [None]. *)
Inductive json : Type :=
| JNull
| JBool (b : bool)
| JNum (n : numeric)
| JStr (s : str)
| JArr (l : list json)
| JObj (m : gmap string json).

(** [d.get(k, default)] on a dict. *)
Definition dict_get (d : gmap string json) (k : string) (default : json)
  : json :=
  match d !! k with
  | Some v => v
  | None => default
  end.

(** [o.get(k, default)] on whatever [json.loads] produced: only a dict
    has the method. *)
Definition get (o : json) (k : string) (default : json) : result json :=
  match o with
  | JObj d => Ret (dict_get d k default)
  | _ => Raise AttributeError
  end.

(** What the HTTP request ends in, when it is made.  [Raised e] is any
    other exception that leaves [urlopen], [response.read()],
    [.decode()] or [json.loads]: [TimeoutError] or an [http.client]
    error while the response is read, [RecursionError] on deeply nested
    JSON, and so on. *)
Inductive response : Type :=
| NetworkError            (* [urlopen] raises [URLError] *)
| NotUTF8                 (* [.decode()] raises [UnicodeDecodeError] *)
| NotJSON                 (* [json.loads] raises [JSONDecodeError] *)
| Parsed (data : json)    (* [json.loads] returns [data] *)
| Raised (e : exn).

(** The module-level globals.  [time.time()] is a binary64 float, and
    so is [_cache_time] once a fetch has stored it; its initial value,
    the int [0], enters the float subtraction as [0.0]. *)
Record state : Type := mkState {
  _cache : gmap string json;
  _cache_time : spec_float
}.

Definition initial : state :=
  {| _cache := ∅; _cache_time := S754_zero false |}.

Definition CACHE_DURATION : Z := 60.

(** [now - _cache_time]: the binary64 subtraction, rounded to nearest. *)
Definition elapsed (now t : spec_float) : spec_float :=
  SFsub prec emax now t.

(** [x < z] for a float [x] and an int [z] that is itself a double (as
    60 is): the comparison of the two values, false when [x] is nan. *)
Definition below (x : spec_float) (z : Z) : bool :=
  SFltb x (binary_normalize prec emax z 0 false).

(** The body of the [try] block up to the assignment to [_cache]: the
    request, the parse, and the dict display evaluated left to right. *)
Definition fetch_upstream (resp : response) : result (gmap string json) :=
  match resp with
  | NetworkError => Raise URLError
  | NotUTF8 => Raise UnicodeDecodeError
  | NotJSON => Raise JSONDecodeError
  | Raised e => Raise e
  | Parsed data =>
      bitcoin ← get data "bitcoin" (JObj ∅);
      btc ← get bitcoin "usd" JNull;
      ethereum ← get data "ethereum" (JObj ∅);
      eth ← get ethereum "usd" JNull;
      solana ← get data "solana" (JObj ∅);
      sol ← get solana "usd" JNull;
      Ret (<["BTC" := btc]> (<["ETH" := eth]> (<["SOL" := sol]> ∅)))
  end.

(** The exceptions named by the [except] clause. *)
Definition caught (e : exn) : bool :=
  match e with
  | URLError | JSONDecodeError | KeyError => true
  | _ => false
  end.

(** Truth value of a dict: it is not empty. *)
Definition truthy (d : gmap string json) : bool := negb (size d =? 0)%nat.

(** One call, with the clock reading and the upstream answer as inputs:
    what the call returns or raises, the globals afterwards, and how
    many upstream requests it made. *)
Record outcome (A : Type) : Type := mkOutcome {
  returned : result A;
  state_after : state;
  upstream_calls : nat
}.
Arguments mkOutcome {A} _ _ _.
Arguments returned {A} _.
Arguments state_after {A} _.
Arguments upstream_calls {A} _.

Definition _fetch_rates (now : spec_float) (resp : response) (st : state)
  : outcome (gmap string json) :=
  if truthy (_cache st) && below (elapsed now (_cache_time st)) CACHE_DURATION
  then mkOutcome (Ret (_cache st)) st 0
  else
    match fetch_upstream resp with
    | Ret rates =>
        mkOutcome (Ret rates) {| _cache := rates; _cache_time := now |} 1
    | Raise e =>
        if caught e then mkOutcome (Ret (_cache st)) st 1
        else mkOutcome (Raise e) st 1
    end.

(** [rate = rates.get(code); None if rate is None else (rate, "USD")] *)
Definition quote (rates : gmap string json) (code : string)
  : option (json * str) :=
  match dict_get rates code JNull with
  | JNull => None
  | rate => Some (rate, lit "USD")
  end.

Definition btc_rate (now : spec_float) (resp : response) (st : state)
  : outcome (option (json * str)) :=
  let o := _fetch_rates now resp st in
  mkOutcome (rates ← returned o; Ret (quote rates "BTC"))
            (state_after o) (upstream_calls o).

Definition eth_rate (now : spec_float) (resp : response) (st : state)
  : outcome (option (json * str)) :=
  let o := _fetch_rates now resp st in
  mkOutcome (rates ← returned o; Ret (quote rates "ETH"))
            (state_after o) (upstream_calls o).

Definition sol_rate (now : spec_float) (resp : response) (st : state)
  : outcome (option (json * str)) :=
  let o := _fetch_rates now resp st in
  mkOutcome (rates ← returned o; Ret (quote rates "SOL"))
            (state_after o) (upstream_calls o).

(** A provider, by its registered currency code. *)
Inductive provider : Set := BTC | ETH | SOL.

(** The [code] each provider is registered under. *)
Definition code (p : provider) : string :=
  match p with
  | BTC => "BTC"
  | ETH => "ETH"
  | SOL => "SOL"
  end.

Definition call (p : provider) : spec_float -> response -> state ->
  outcome (option (json * str)) :=
  match p with
  | BTC => btc_rate
  | ETH => eth_rate
  | SOL => sol_rate
  end.

(** A sequence of calls of the fetcher, each with its clock reading and
    upstream answer: the outcomes in order, threading the globals. *)
Fixpoint run (calls : list (spec_float * response)) (st : state)
  : list (outcome (gmap string json)) :=
  match calls with
  | [] => []
  | (now, resp) :: calls' =>
      let o := _fetch_rates now resp st in
      o :: run calls' (state_after o)
  end.

(** The globals after a sequence of calls of the fetcher. *)
Fixpoint final_state (calls : list (spec_float * response)) (st : state)
  : state :=
  match calls with
  | [] => st
  | (now, resp) :: calls' =>
      final_state calls' (state_after (_fetch_rates now resp st))
  end.

(** The key of the upstream answer each provider's rate is read from. *)
Definition coin (p : provider) : string :=
  match p with
  | BTC => "bitcoin"
  | ETH => "ethereum"
  | SOL => "solana"
  end.

(** A well-formed answer: [{"bitcoin": {"usd": b}, "ethereum": {"usd": e},
    "solana": {"usd": s}}]. *)
Definition price (usd : Z) : json := JObj {[ "usd" := JNum (PyInt usd) ]}.

Definition prices (b e s : Z) : json :=
  JObj (<["bitcoin" := price b]>
        (<["ethereum" := price e]> (<["solana" := price s]> ∅))).

(** A clock reading of a whole number of seconds. *)
Definition seconds (z : Z) : spec_float :=
  binary_normalize prec emax z 0 false.

End Crypto.


(* ===================================================================== *)
(** * Reference definitions the properties are stated against            *)
(* ===================================================================== *)

(** The Fibonacci sequence: 0, 1, and each later term the sum of the two
    before it. *)
Fixpoint fib_spec (n : nat) : Z :=
  match n with
  | O => 0
  | S m =>
      match m with
      | O => 1
      | S k => fib_spec m + fib_spec k
      end
  end.

(** Reading a hexadecimal numeral back, as [int(s, 16)] does for
    lower-case digits: [None] on any other character. *)
Definition hex_digit_value (c : Z) : option Z :=
  if (48 <=? c) && (c <=? 57) then Some (c - 48)
  else if (97 <=? c) && (c <=? 102) then Some (c - 87)
  else None.

Fixpoint parse_hex_from (acc : Z) (s : Py.str) : option Z :=
  match s with
  | [] => Some acc
  | c :: s' =>
      match hex_digit_value c with
      | Some d => parse_hex_from (16 * acc + d) s'
      | None => None
      end
  end.

Definition parse_hex (s : Py.str) : option Z := parse_hex_from 0 s.

(** The real number a finite float stands for. *)
Definition float_value (f : spec_float) : Q :=
  match f with
  | S754_finite s m e =>
      inject_Z (cond_Zopp s (Zpos m)) * (2 ^ e)
  | _ => 0
  end%Q.



(** The float [5.9], as the division [59 / 10]. *)
Definition float_5_9 : spec_float :=
  SFdiv Py.prec Py.emax
    (binary_normalize Py.prec Py.emax 59 0 false)
    (binary_normalize Py.prec Py.emax 10 0 false).

(** The floats [-1.0], [-0.5], [2.25] and [1.5]. *)
Definition float_m1 : spec_float := S754_finite true 4503599627370496 (-52).
Definition float_m0_5 : spec_float := S754_finite true 4503599627370496 (-53).
Definition float_2_25 : spec_float := S754_finite false 5066549580791808 (-51).
Definition float_1_5 : spec_float := S754_finite false 6755399441055744 (-52).

(* ===================================================================== *)
(** * Properties of math_ext.py                                           *)
(* ===================================================================== *)

Section MathExtProperties.
Import Py MathExt.

Lemma int_PyInt (n : Z) : int (PyInt n) = Ret n.
Proof. reflexivity. Qed.

Lemma float_PyFloat (f : spec_float) : float (PyFloat f) = Ret f.
Proof. reflexivity. Qed.

(** Coercing twice is coercing once, for [int] ... *)
Lemma int_idempotent {A} (x : numeric) (k : Z -> result A) :
  (n ← int x; k n) = (n ← int x; m ← int (PyInt n); k m).
Proof. destruct (int x); reflexivity. Qed.

(** ... and for [float]. *)
Lemma float_idempotent {A} (x : numeric) (k : spec_float -> result A) :
  (f ← float x; k f) = (f ← float x; g ← float (PyFloat f); k g).
Proof. destruct (float x); reflexivity. Qed.

(** Truncation is toward zero: it never moves a float away from zero,
    and moves it by less than one. *)
Lemma int_of_float_examples :
  int_of_float float_5_9 = Ret 5 /\
  int_of_float (SFopp float_5_9) = Ret (-5) /\
  int_of_float float_m0_5 = Ret 0 /\
  int_of_float float_2_25 = Ret 2 /\
  int_of_float S754_nan = Raise ValueError /\
  int_of_float (S754_infinity false) = Raise OverflowError.
Proof. repeat split; reflexivity. Qed.

(** The loop invariant of [fibonacci]: [(a, b)] are two consecutive
    Fibonacci numbers. *)
Lemma fib_loop_spec (k n : nat) :
  fib_loop k (fib_spec n) (fib_spec (S n)) =
  (fib_spec (n + k), fib_spec (S (n + k))).
Proof.
  revert n. induction k as [|k IH]; intros n.
  - rewrite Nat.add_0_r. reflexivity.
  - cbn [fib_loop].
    replace (fib_spec n + fib_spec (S n)) with (fib_spec (S (S n)))
      by (cbn [fib_spec]; lia).
    rewrite IH. replace (S n + k)%nat with (n + S k)%nat by lia.
    reflexivity.
Qed.

Lemma fibonacci_nonneg (n : Z) :
  0 <= n -> fibonacci (PyInt n) = Ret (PyInt (fib_spec (Z.to_nat n))).
Proof.
  intros Hn. unfold fibonacci. cbn [int mbind result_bind bind].
  destruct (Z.leb_spec n 1) as [Hle|Hgt].
  - assert (n = 0 \/ n = 1) as [->| ->] by lia; reflexivity.
  - change 0 with (fib_spec 0) at 1. change 1 with (fib_spec 1) at 2.
    rewrite fib_loop_spec. cbn [snd].
    replace (S (0 + Z.to_nat (n - 1))) with (Z.to_nat n) by lia.
    reflexivity.
Qed.

Lemma fibonacci_negative (n : Z) :
  n < 0 -> fibonacci (PyInt n) = Ret (PyInt n).
Proof.
  intros Hn. unfold fibonacci. cbn [int mbind result_bind bind].
  destruct (Z.leb_spec n 1); [reflexivity | lia].
Qed.

Lemma fibonacci_int (x : numeric) (n : Z) :
  int x = Ret n -> fibonacci x = fibonacci (PyInt n).
Proof. intros H. unfold fibonacci. rewrite H. reflexivity. Qed.

(** C10. [fib] returns the n-th Fibonacci number (0, 1, then the sum of
    the two previous terms) whenever its argument truncates to some
    [n >= 0], and returns [n] itself whenever the argument truncates to
    a negative [n]; it never fails on an argument that [int()] accepts. *)
Theorem C10_fib_fibonacci_or_negative_identity (x : numeric) (n : Z) :
  int x = Ret n ->
  (0 <= n -> fibonacci x = Ret (PyInt (fib_spec (Z.to_nat n)))) /\
  (n < 0 -> fibonacci x = Ret (PyInt n)).
Proof.
  intros Hx. rewrite (fibonacci_int x n Hx). split.
  - apply fibonacci_nonneg.
  - apply fibonacci_negative.
Qed.

(** C10 at [fib(5.9)] and at [fib(-5)]. *)
Lemma C10_witness :
  int (PyFloat float_5_9) = Ret 5 /\
  fibonacci (PyFloat float_5_9) = Ret (PyInt 5) /\
  int (PyInt (-5)) = Ret (-5) /\
  fibonacci (PyInt (-5)) = Ret (PyInt (-5)).
Proof.
  split; [reflexivity|]. split.
  - apply (proj1 (C10_fib_fibonacci_or_negative_identity
                    (PyFloat float_5_9) 5 eq_refl)). lia.
  - split; [reflexivity|].
    apply (proj2 (C10_fib_fibonacci_or_negative_identity
                    (PyInt (-5)) (-5) eq_refl)). lia.
Defined.

(** C7. [factorial] called with [-1] (as an int or as the float [-1.0])
    raises inside [math.factorial], which the expression table reports
    as [DomainError]; called with two arguments, its declared arity
    being 1, it fails with [ArityMismatch].  Neither call yields a
    number. *)
Theorem C7_factorial_domain_and_arity_errors :
  factorial (PyInt (-1)) = Raise ValueError /\
  Engine.call_function Engine.factorial_entry [PyInt (-1)]
    = inl Engine.DomainError /\
  Engine.call_function Engine.factorial_entry [PyFloat float_m1]
    = inl Engine.DomainError /\
  Engine.arity Engine.factorial_entry = 1%nat /\
  (forall a b : numeric,
     Engine.callable Engine.factorial_entry [a; b] = Raise TypeError /\
     Engine.call_function Engine.factorial_entry [a; b]
       = inl Engine.ArityMismatch).
Proof. repeat split. Qed.

Section Libm.
Variables math_log math_log10 math_sin math_cos math_tan
  : spec_float -> result spec_float.
Variable float_pow : spec_float -> spec_float -> spec_float.

(** C8. The combinatorial functions see their arguments only through
    [int()]: calling one on [x] is calling it on the truncation of [x]
    (and fails the same way when [int(x)] fails), arguments being
    coerced left to right.  [sqrt], [log], [log10], [sin], [cos] and
    [tan] see theirs through [float()] instead, so a fractional part
    survives: [sqrt(2.25)] is [1.5], not [sqrt(2)]. *)
Theorem C8_int_truncation_for_combinatorial_float_for_real :
  (forall x, factorial x = (n ← int x; factorial (PyInt n))) /\
  (forall x, fibonacci x = (n ← int x; fibonacci (PyInt n))) /\
  (forall x y, gcd x y = (a ← int x; b ← int y; gcd (PyInt a) (PyInt b))) /\
  (forall x y, lcm x y = (a ← int x; b ← int y; lcm (PyInt a) (PyInt b))) /\
  (forall x, is_prime float_pow x
             = (n ← int x; is_prime float_pow (PyInt n))) /\
  (forall x, sqrt x = (f ← float x; sqrt (PyFloat f))) /\
  (forall x, log math_log x = (f ← float x; log math_log (PyFloat f))) /\
  (forall x, log10 math_log10 x
             = (f ← float x; log10 math_log10 (PyFloat f))) /\
  (forall x, sin math_sin x = (f ← float x; sin math_sin (PyFloat f))) /\
  (forall x, cos math_cos x = (f ← float x; cos math_cos (PyFloat f))) /\
  (forall x, tan math_tan x = (f ← float x; tan math_tan (PyFloat f))) /\
  int (PyFloat float_2_25) = Ret 2 /\
  factorial (PyFloat float_2_25) = Ret (PyInt 2) /\
  factorial (PyFloat float_m0_5) = Ret (PyInt 1) /\
  sqrt (PyFloat float_2_25) = Ret (PyFloat float_1_5) /\
  sqrt (PyInt 2) <> Ret (PyFloat float_1_5).
Proof.
  repeat match goal with |- _ /\ _ => split end;
    try (intros x; destruct x as [z|f]; try reflexivity;
         cbn; destruct (int_of_float f); reflexivity);
    try (intros x y; destruct x as [a|f], y as [b|g]; cbn;
         repeat match goal with
                | |- context [int_of_float ?h] => destruct (int_of_float h); cbn
                end; reflexivity).
  - reflexivity.
  - vm_compute. reflexivity.
  - vm_compute. reflexivity.
  - vm_compute. reflexivity.
  - vm_compute. discriminate.
Qed.

End Libm.

End MathExtProperties.

(* ===================================================================== *)
(** * Properties of custom_decoder.py                                     *)
(* ===================================================================== *)

Section CustomDecoderProperties.
Import Py CustomDecoder.

(** A boolean property checked on every element of a range holds on the
    whole interval. *)
Lemma forallb_range (P : Z -> bool) (lo hi : Z) :
  forallb P (range lo hi) = true ->
  forall c, lo <= c < hi -> P c = true.
Proof.
  intros H c Hc. rewrite forallb_forall in H. apply H.
  unfold range. apply in_map_iff. exists (Z.to_nat (c - lo)). split.
  - lia.
  - apply in_seq. lia.
Qed.

Lemma rot13_char_outside_ascii (c : Z) :
  c < 0 \/ 128 <= c -> rot13_char c = c.
Proof.
  intros Hc. unfold rot13_char.
  change (ord "a") with 97. change (ord "z") with 122.
  change (ord "A") with 65. change (ord "Z") with 90.
  destruct (Z.leb_spec 97 c), (Z.leb_spec c 122),
           (Z.leb_spec 65 c), (Z.leb_spec c 90); cbn [andb]; lia.
Qed.

Lemma rot13_char_involutive (c : Z) : rot13_char (rot13_char c) = c.
Proof.
  destruct (Z.lt_ge_cases c 0) as [Hneg|Hnn].
  { rewrite !rot13_char_outside_ascii; auto.
    rewrite rot13_char_outside_ascii; auto. }
  destruct (Z.lt_ge_cases c 128) as [Hlt|Hge].
  - apply Z.eqb_eq.
    apply (forallb_range (fun k => rot13_char (rot13_char k) =? k) 0 128);
      [vm_compute; reflexivity | lia].
  - rewrite !rot13_char_outside_ascii; auto.
    rewrite rot13_char_outside_ascii; auto.
Qed.

Lemma rot13_involutive (s : str) : rot13 (rot13 s) = s.
Proof.
  unfold rot13. induction s as [|c s IH]; cbn [List.map].
  - reflexivity.
  - rewrite rot13_char_involutive, IH. reflexivity.
Qed.

Lemma rot13_char_valid (c : Z) :
  bool_decide (rot13_char c ∈ valid_chars) = bool_decide (c ∈ valid_chars).
Proof.
  destruct (Z.lt_ge_cases c 0) as [Hneg|Hnn].
  { rewrite rot13_char_outside_ascii; auto. }
  destruct (Z.lt_ge_cases c 128) as [Hlt|Hge].
  - pose (P := fun k : Z =>
                  Bool.eqb (bool_decide (rot13_char k ∈ valid_chars))
                           (bool_decide (k ∈ valid_chars))).
    assert (HP : forallb P (range 0 128) = true) by (vm_compute; reflexivity).
    apply eqb_prop. apply (forallb_range P 0 128 HP). lia.
  - rewrite rot13_char_outside_ascii; auto.
Qed.

Lemma rot13_valid (s : str) :
  forallb (fun c => bool_decide (c ∈ valid_chars)) (rot13 s)
  = forallb (fun c => bool_decide (c ∈ valid_chars)) s.
Proof.
  unfold rot13. induction s as [|c s IH]; cbn [List.map forallb].
  - reflexivity.
  - rewrite rot13_char_valid, IH. reflexivity.
Qed.

Section Unicode.
Variable unicode_isalpha : Z -> bool.

Lemma rot13_char_isalpha (c : Z) :
  isalpha unicode_isalpha (rot13_char c) = isalpha unicode_isalpha c.
Proof.
  destruct (Z.lt_ge_cases c 0) as [Hneg|Hnn].
  { rewrite rot13_char_outside_ascii; auto. }
  destruct (Z.lt_ge_cases c 128) as [Hlt|Hge].
  - apply eqb_prop.
    apply (forallb_range
             (fun k => Bool.eqb (isalpha unicode_isalpha (rot13_char k))
                                (isalpha unicode_isalpha k)) 0 128);
      [vm_compute; reflexivity | lia].
  - rewrite rot13_char_outside_ascii; auto.
Qed.

Lemma rot13_letter_count (s : str) :
  letter_count unicode_isalpha (rot13 s) = letter_count unicode_isalpha s.
Proof.
  unfold letter_count, rot13.
  induction s as [|c s IH]; cbn [List.map fold_right].
  - reflexivity.
  - rewrite rot13_char_isalpha, IH. reflexivity.
Qed.

(** The decoder emits nothing or exactly the ROT13 image of its input,
    and the latter only when that image differs from the input. *)
Lemma decode_rot13_cases (s : str) :
  decode_rot13 unicode_isalpha s = [] \/
  (rot13 s <> s /\
   (letter_count unicode_isalpha s <? 3) = false /\
   forallb (fun c => bool_decide (c ∈ valid_chars)) s = true /\
   decode_rot13 unicode_isalpha s =
     [ {| value := CoreValue.String (rot13 s);
          confidence := 0.3;
          description := lit "ROT13 decoded: " ++ rot13 s |} ]).
Proof.
  unfold decode_rot13.
  destruct (letter_count unicode_isalpha s <? 3); [left; reflexivity|].
  destruct (forallb _ s); cbn [negb]; [|left; reflexivity].
  case_bool_decide as Hfix; [left; reflexivity|].
  right. repeat split. exact Hfix.
Qed.

(** C9. ROT13 as the decoder implements it is an involution on every
    string.  Whenever the rot13 decoder emits an interpretation of [s],
    the emitted value is the string [rot13 s], it differs from [s], and
    decoding it again with the same decoder emits exactly [s]. *)
Theorem C9_rot13_involution_and_redecoding :
  (forall s : str, rot13 (rot13 s) = s) /\
  (forall (s : str) (i : Interpretation),
     In i (decode_rot13 unicode_isalpha s) ->
     value i = CoreValue.String (rot13 s) /\
     rot13 s <> s /\
     decode_rot13 unicode_isalpha (rot13 s) =
       [ {| value := CoreValue.String s;
            confidence := 0.3;
            description := lit "ROT13 decoded: " ++ s |} ]).
Proof.
  split; [exact rot13_involutive|].
  intros s i Hi.
  destruct (decode_rot13_cases s) as [Hnil|(Hne & Hcount & Hvalid & Hs)].
  { rewrite Hnil in Hi. destruct Hi. }
  rewrite Hs in Hi. destruct Hi as [<-|[]]. cbn [value].
  split; [reflexivity|]. split; [exact Hne|].
  unfold decode_rot13.
  rewrite rot13_letter_count, Hcount, rot13_valid, Hvalid. cbn [negb].
  rewrite rot13_involutive.
  case_bool_decide as Hfix; [|reflexivity].
  exfalso. apply Hne. symmetry. exact Hfix.
Qed.

(** C1. On ["EXAMPLE:hi"] the example-format decoder emits exactly one
    interpretation, the String ["hi"] with confidence 0.95, and dispatch
    over the two bundled decoders, in either registration order, ranks
    it first (the rot13 decoder emits nothing there: the colon is not a
    valid character).  On ["12345"] both decoders emit nothing, rot13
    because the letter count 0 is below 3, so dispatch is empty. *)
Theorem C1_example_prefix_and_digits_scenarios :
  let d1 := {| value := CoreValue.String (lit "hi");
               confidence := 0.95;
               description := lit "Example format: hi" |} in
  decode_example (lit "EXAMPLE:hi") = [d1] /\
  decode_rot13 unicode_isalpha (lit "EXAMPLE:hi") = [] /\
  Engine.dispatch [decode_example; decode_rot13 unicode_isalpha]
    (lit "EXAMPLE:hi") = [d1] /\
  Engine.dispatch [decode_rot13 unicode_isalpha; decode_example]
    (lit "EXAMPLE:hi") = [d1] /\
  letter_count unicode_isalpha (lit "12345") = 0 /\
  decode_rot13 unicode_isalpha (lit "12345") = [] /\
  decode_example (lit "12345") = [] /\
  Engine.dispatch [decode_example; decode_rot13 unicode_isalpha]
    (lit "12345") = [].
Proof. cbv zeta. repeat split; vm_compute; reflexivity. Qed.

End Unicode.

(** C9 at ["Uryyb, Jbeyq!"], which decodes to ["Hello, World!"]. *)
Lemma C9_witness :
  let s := lit "Uryyb, Jbeyq!" in
  let i := {| value := CoreValue.String (lit "Hello, World!");
              confidence := 0.3;
              description := lit "ROT13 decoded: Hello, World!" |} in
  In i (decode_rot13 (fun _ => false) s) /\
  value i = CoreValue.String (rot13 s) /\
  rot13 s <> s /\
  decode_rot13 (fun _ => false) (rot13 s) =
    [ {| value := CoreValue.String s;
         confidence := 0.3;
         description := lit "ROT13 decoded: " ++ s |} ].
Proof.
  cbv zeta. split.
  - vm_compute. left. reflexivity.
  - apply (proj2 (C9_rot13_involution_and_redecoding (fun _ => false))
             (lit "Uryyb, Jbeyq!")).
    vm_compute. left. reflexivity.
Defined.

End CustomDecoderProperties.

(* ===================================================================== *)
(** * Properties of checksums.py                                          *)
(* ===================================================================== *)

Section ChecksumsProperties.
Import Py Checksums.

Variable zlib_crc32 : list Byte.byte -> Z.
Variables hashlib_md5 hashlib_sha1 hashlib_sha256 hashlib_sha512
  : list Byte.byte -> str.
Variable hashlib_blake2b : list Byte.byte -> Z -> str.

Lemma gtb_above (n t : Z) : t < n -> (n >? t) = true.
Proof. intros H. rewrite Z.gtb_ltb. apply Z.ltb_lt. exact H. Qed.

Lemma gtb_within (n t : Z) : n <= t -> (n >? t) = false.
Proof. intros H. rewrite Z.gtb_ltb. apply Z.ltb_ge. exact H. Qed.

(** A value that is not [bytes] is never hashed. *)
Lemma not_bytes_skipped (v : object) :
  (forall b, v <> PyBytes b) ->
  compute_crc32 zlib_crc32 v = None /\
  compute_md5 hashlib_md5 v = None /\
  compute_sha1 hashlib_sha1 v = None /\
  compute_sha256 hashlib_sha256 v = None /\
  compute_sha512 hashlib_sha512 v = None /\
  compute_blake2b hashlib_blake2b v = None.
Proof.
  intros Hv. destruct v as [b| | |]; try (repeat split; reflexivity).
  destruct (Hv b). reflexivity.
Qed.

(** C6. A bytes value longer than 10,000,000 is skipped (the null
    result) by the crc32, md5 and sha1 traits, and one longer than
    1,000,000 by the sha256, sha512 and blake2b-256 traits.  The
    thresholds are exact: a bytes value of at most that length gets its
    digest line. *)
Theorem C6_size_thresholds_skip_checksums (b : list Byte.byte) :
  (10_000_000 < len b ->
     compute_crc32 zlib_crc32 (PyBytes b) = None /\
     compute_md5 hashlib_md5 (PyBytes b) = None /\
     compute_sha1 hashlib_sha1 (PyBytes b) = None) /\
  (1_000_000 < len b ->
     compute_sha256 hashlib_sha256 (PyBytes b) = None /\
     compute_sha512 hashlib_sha512 (PyBytes b) = None /\
     compute_blake2b hashlib_blake2b (PyBytes b) = None) /\
  (len b <= 10_000_000 ->
     compute_crc32 zlib_crc32 (PyBytes b)
       = Some (lit "crc32: "
               ++ format_08x (Z.land (zlib_crc32 b) 0xffffffff)) /\
     compute_md5 hashlib_md5 (PyBytes b)
       = Some (lit "md5: " ++ hashlib_md5 b) /\
     compute_sha1 hashlib_sha1 (PyBytes b)
       = Some (lit "sha1: " ++ hashlib_sha1 b)) /\
  (len b <= 1_000_000 ->
     compute_sha256 hashlib_sha256 (PyBytes b)
       = Some (lit "sha256: " ++ hashlib_sha256 b) /\
     compute_sha512 hashlib_sha512 (PyBytes b)
       = Some (lit "sha512: " ++ hashlib_sha512 b) /\
     compute_blake2b hashlib_blake2b (PyBytes b)
       = Some (lit "blake2b-256: " ++ hashlib_blake2b b 32)).
Proof.
  unfold compute_crc32, compute_md5, compute_sha1,
         compute_sha256, compute_sha512, compute_blake2b.
  repeat split; first [rewrite gtb_above by assumption
                      | rewrite gtb_within by assumption]; reflexivity.
Qed.

End ChecksumsProperties.

(** C6 at 10,000,001 zero bytes. *)
Lemma C6_witness :
  let big := replicate (Z.to_nat 10_000_001) Byte.x00 in
  10_000_000 < Checksums.len big /\
  Checksums.compute_crc32 (fun _ => 0) (Checksums.PyBytes big) = None /\
  Checksums.compute_md5 (fun _ => []) (Checksums.PyBytes big) = None /\
  Checksums.compute_sha1 (fun _ => []) (Checksums.PyBytes big) = None.
Proof.
  cbv zeta.
  assert (H : 10_000_000
              < Checksums.len (replicate (Z.to_nat 10_000_001) Byte.x00)).
  { unfold Checksums.len. rewrite length_replicate. lia. }
  split; [exact H|].
  exact (proj1 (C6_size_thresholds_skip_checksums
                  (fun _ => 0) (fun _ => []) (fun _ => [])
                  (fun _ => []) (fun _ => []) (fun _ _ => [])
                  (replicate (Z.to_nat 10_000_001) Byte.x00)) H).
Defined.

(* ===================================================================== *)
(** * Properties of crypto.py                                             *)
(* ===================================================================== *)

Section CryptoProperties.
Import Py Crypto.

(** A completed fetch always builds the three-key dict, which is truthy
    whatever the values are. *)
Lemma fetch_upstream_truthy (resp : response) (rates : gmap string json) :
  fetch_upstream resp = Ret rates -> truthy rates = true.
Proof.
  destruct resp as [| | |data|e]; cbn; try discriminate.
  destruct (get data "bitcoin" _) as [b|]; cbn; [|discriminate].
  destruct (get b "usd" _) as [btc|]; cbn; [|discriminate].
  destruct (get data "ethereum" _) as [e|]; cbn; [|discriminate].
  destruct (get e "usd" _) as [eth|]; cbn; [|discriminate].
  destruct (get data "solana" _) as [s|]; cbn; [|discriminate].
  destruct (get s "usd" _) as [sol|]; cbn; [|discriminate].
  intros [= <-]. unfold truthy. apply negb_true_iff, Nat.eqb_neq.
  intros H. apply map_size_empty_iff in H.
  exact (insert_non_empty _ _ _ H).
Qed.

(** The cache-hit branch. *)
Lemma fetch_rates_hit (now : spec_float) (resp : response) (st : state) :
  truthy (_cache st) = true ->
  below (elapsed now (_cache_time st)) CACHE_DURATION = true ->
  _fetch_rates now resp st = mkOutcome (Ret (_cache st)) st 0.
Proof.
  intros Ht Hlt. unfold _fetch_rates. rewrite Ht, Hlt. reflexivity.
Qed.

(** Past the cache check the request is always made. *)
Lemma fetch_rates_miss (now : spec_float) (resp : response) (st : state) :
  truthy (_cache st) && below (elapsed now (_cache_time st)) CACHE_DURATION
    = false ->
  _fetch_rates now resp st =
    match fetch_upstream resp with
    | Ret rates =>
        mkOutcome (Ret rates) {| _cache := rates; _cache_time := now |} 1
    | Raise e =>
        if caught e then mkOutcome (Ret (_cache st)) st 1
        else mkOutcome (Raise e) st 1
    end.
Proof. intros H. unfold _fetch_rates. rewrite H. reflexivity. Qed.

Lemma fetch_rates_calls (now : spec_float) (resp : response) (st : state) :
  upstream_calls (_fetch_rates now resp st) =
    if truthy (_cache st) && below (elapsed now (_cache_time st)) CACHE_DURATION
    then 0%nat else 1%nat.
Proof.
  unfold _fetch_rates.
  destruct (truthy (_cache st) && _); [reflexivity|].
  destruct (fetch_upstream resp) as [rates|e]; [reflexivity|].
  destruct (caught e); reflexivity.
Qed.

(** A call that made the request and got a well-formed answer stores
    it, with the time of the call. *)
Lemma fetch_rates_success (now : spec_float) (resp : response) (st : state)
      (rates : gmap string json) :
  upstream_calls (_fetch_rates now resp st) = 1%nat ->
  fetch_upstream resp = Ret rates ->
  _fetch_rates now resp st =
    mkOutcome (Ret rates) {| _cache := rates; _cache_time := now |} 1.
Proof.
  intros Hcalls Hup. rewrite fetch_rates_calls in Hcalls.
  destruct (truthy (_cache st) && _) eqn:E; [discriminate|].
  rewrite (fetch_rates_miss _ _ _ E), Hup. reflexivity.
Qed.

(** A failure the [except] clause names leaves the globals alone and
    hands back the cache as it is. *)
Lemma fetch_rates_caught (now : spec_float) (resp : response) (st : state) (e : exn) :
  fetch_upstream resp = Raise e ->
  caught e = true ->
  returned (_fetch_rates now resp st) = Ret (_cache st) /\
  state_after (_fetch_rates now resp st) = st.
Proof.
  intros Hup He. unfold _fetch_rates.
  destruct (truthy (_cache st) && _); [split; reflexivity|].
  rewrite Hup, He. split; reflexivity.
Qed.

(** A failure it does not name goes up to the caller, when the request
    is made. *)
Lemma fetch_rates_uncaught (now : spec_float) (resp : response) (st : state) (e : exn) :
  fetch_upstream resp = Raise e ->
  caught e = false ->
  upstream_calls (_fetch_rates now resp st) = 1%nat ->
  returned (_fetch_rates now resp st) = Raise e.
Proof.
  intros Hup He Hcalls. rewrite fetch_rates_calls in Hcalls.
  destruct (truthy (_cache st) && _) eqn:E; [discriminate|].
  rewrite (fetch_rates_miss _ _ _ E), Hup, He. reflexivity.
Qed.

(** Each provider is the fetcher followed by a lookup of its code. *)
Lemma call_fetch_rates (p : provider) (now : spec_float) (resp : response) (st : state) :
  call p now resp st =
    let o := _fetch_rates now resp st in
    mkOutcome (rates ← returned o; Ret (quote rates (code p)))
              (state_after o) (upstream_calls o).
Proof. destruct p; reflexivity. Qed.



(** C3, on the code.  With the rates of one earlier successful fetch in
    the cache, a failure the [except] clause names (no connection, a
    body that is not JSON) makes the fetcher return the cached rates.  A
    body that is JSON but not an object is not among them: [data.get]
    raises [AttributeError], which leaves the fetcher and every
    provider. *)
Theorem C3_stale_fallback_misses_wrong_shape :
  let first :=
    _fetch_rates (seconds 100) (Parsed (prices 50000 3000 100)) initial in
  let st1 := state_after first in
  upstream_calls first = 1%nat /\
  quote (_cache st1) "BTC" = Some (JNum (PyInt 50000), lit "USD") /\
  quote (_cache st1) "ETH" = Some (JNum (PyInt 3000), lit "USD") /\
  quote (_cache st1) "SOL" = Some (JNum (PyInt 100), lit "USD") /\
  returned (_fetch_rates (seconds 200) NetworkError st1) = Ret (_cache st1) /\
  returned (_fetch_rates (seconds 200) NotJSON st1) = Ret (_cache st1) /\
  returned (_fetch_rates (seconds 200) (Parsed (JArr [])) st1) = Raise AttributeError /\
  (forall p : provider,
     returned (call p (seconds 200) (Parsed (JArr [])) st1) = Raise AttributeError).
Proof.
  cbv zeta.
  split; [vm_compute; reflexivity|].
  split; [vm_compute; reflexivity|].
  split; [vm_compute; reflexivity|].
  split; [vm_compute; reflexivity|].
  split; [apply (fetch_rates_caught _ NetworkError _ URLError); reflexivity|].
  split; [apply (fetch_rates_caught _ NotJSON _ JSONDecodeError); reflexivity|].
  split; [vm_compute; reflexivity|].
  intros p; destruct p; vm_compute; reflexivity.
Qed.

(** C4, on the code.  With nothing cached, a failure the [except]
    clause names makes each provider return [None]; a body that is JSON
    but not an object makes each provider raise [AttributeError] to its
    caller, and a body that is not UTF-8 [UnicodeDecodeError]. *)
Theorem C4_cold_failure_raises_on_wrong_shape (p : provider) (now : spec_float) :
  returned (call p now NetworkError initial) = Ret None /\
  returned (call p now NotJSON initial) = Ret None /\
  returned (call p now (Parsed (JArr [])) initial) = Raise AttributeError /\
  returned (call p now (Parsed JNull) initial) = Raise AttributeError /\
  returned (call p now NotUTF8 initial) = Raise UnicodeDecodeError.
Proof. destruct p; repeat split. Qed.

(** C5 as stated fails: the BTC provider, asked at time 110 while
    upstream quotes 60000, answers 60000 from a fresh module but 50000
    when an invocation at time 100 had fetched that rate. *)
Lemma C5_counterexample :
  let earlier := btc_rate (seconds 100) (Parsed (prices 50000 3000 100)) initial in
  returned (btc_rate (seconds 110) (Parsed (prices 60000 3000 100)) initial)
    = Ret (Some (JNum (PyInt 60000), lit "USD")) /\
  returned (btc_rate (seconds 110) (Parsed (prices 60000 3000 100))
                     (state_after earlier))
    = Ret (Some (JNum (PyInt 50000), lit "USD")) /\
  returned (btc_rate (seconds 110) (Parsed (prices 60000 3000 100))
                     (state_after earlier))
    <> returned (btc_rate (seconds 110) (Parsed (prices 60000 3000 100)) initial).
Proof.
  cbv zeta. split; [vm_compute; reflexivity|].
  split; [vm_compute; reflexivity|].
  vm_compute. discriminate.
Qed.

(** C5, amended.  The providers do retain rate state between calls, in
    the plugin's globals [_cache] and [_cache_time], which the three
    providers share.  An invocation either leaves the globals as they
    were (cache hit, or a fetch that failed) or stores the rates it
    fetched together with the time of the call.  Once an invocation has
    fetched [rates] at clock reading [now], every provider invoked at a
    reading [now'] that makes the guard's binary64 difference
    [now' - now] less than [CACHE_DURATION] answers from those stored
    rates without an upstream request, whatever upstream would
    answer. *)
Theorem C5_rate_state_retained_in_plugin_cache
        (p : provider) (now : spec_float) (resp : response) (st : state) :
  let st' := state_after (call p now resp st) in
  (forall q : provider, state_after (call q now resp st) = st') /\
  (st' = st \/
   exists rates, fetch_upstream resp = Ret rates /\
                 upstream_calls (call p now resp st) = 1%nat /\
                 st' = {| _cache := rates; _cache_time := now |}) /\
  (forall rates,
     fetch_upstream resp = Ret rates ->
     upstream_calls (call p now resp st) = 1%nat ->
     forall (q : provider) (now' : spec_float) (resp' : response),
       below (elapsed now' now) CACHE_DURATION = true ->
       call q now' resp' st' = mkOutcome (Ret (quote rates (code q))) st' 0).
Proof.
  cbv zeta. split; [|split].
  - intros q. rewrite !call_fetch_rates. reflexivity.
  - rewrite call_fetch_rates. cbn [state_after upstream_calls].
    unfold _fetch_rates.
    destruct (truthy (_cache st) && _); [left; reflexivity|].
    destruct (fetch_upstream resp) as [rates|e].
    + right. exists rates. repeat split.
    + left. destruct (caught e); reflexivity.
  - intros rates Hup Hcalls q now' resp' Hlt.
    rewrite call_fetch_rates in Hcalls. cbn [upstream_calls] in Hcalls.
    rewrite (call_fetch_rates p), (call_fetch_rates q).
    rewrite (fetch_rates_success _ _ _ _ Hcalls Hup). cbn [state_after].
    rewrite fetch_rates_hit.
    + reflexivity.
    + exact (fetch_upstream_truthy _ _ Hup).
    + exact Hlt.
Qed.

End CryptoProperties.


(** C5 (amended) after the BTC provider fetched at reading 100: the ETH
    provider at 159 answers the rate stored then, not the one upstream
    quotes now. *)
Lemma C5_witness :
  let resp := Crypto.Parsed (Crypto.prices 50000 3000 100) in
  let st' :=
    Crypto.state_after
      (Crypto.call Crypto.BTC (Crypto.seconds 100) resp Crypto.initial) in
  Crypto.returned
    (Crypto.call Crypto.ETH (Crypto.seconds 159)
       (Crypto.Parsed (Crypto.prices 60000 4000 200)) st')
  = Py.Ret (Some (Crypto.JNum (Py.PyInt 3000), Py.lit "USD")).
Proof.
  cbv zeta.
  pose proof (C5_rate_state_retained_in_plugin_cache
                Crypto.BTC (Crypto.seconds 100)
                (Crypto.Parsed (Crypto.prices 50000 3000 100))
                Crypto.initial) as (_ & _ & Hserve).
  cbv zeta in Hserve.
  rewrite (Hserve _ eq_refl eq_refl Crypto.ETH (Crypto.seconds 159)
             (Crypto.Parsed (Crypto.prices 60000 4000 200)) eq_refl).
  reflexivity.
Defined.

(* ===================================================================== *)
(** * Further properties of math_ext.py                                   *)
(* ===================================================================== *)

Section MathExtMore.
Import Py MathExt.

Lemma gcd_mul_lcm (a b : Z) : Z.gcd a b * Z.lcm a b = Z.abs (a * b).
Proof.
  unfold Z.lcm. pose proof (Z.gcd_nonneg a b) as Hnn.
  destruct (Z.gcd_divide_r a b) as [q Hq].
  destruct (Z.eq_dec (Z.gcd a b) 0) as [Hz|Hnz].
  - apply Z.gcd_eq_0 in Hz. destruct Hz as [-> ->]. reflexivity.
  - remember (Z.gcd a b) as g eqn:Hg. clear Hg.
    rewrite Hq. rewrite (Z.div_mul q g Hnz).
    rewrite Z.mul_assoc, (Z.abs_mul (a * q) g), (Z.abs_eq g Hnn). ring.
Qed.

Lemma lcm_PyInt (a b : Z) : lcm (PyInt a) (PyInt b) = Ret (PyInt (Z.lcm a b)).
Proof.
  unfold lcm. cbn [int mbind result_bind bind].
  destruct (Z.eqb_spec a 0) as [->|Ha]; cbn [negb andb].
  { rewrite Z.lcm_0_l. reflexivity. }
  destruct (Z.eqb_spec b 0) as [->|Hb]; cbn [negb andb].
  { rewrite Z.lcm_0_r. reflexivity. }
  do 2 f_equal. unfold math_gcd.
  rewrite <- gcd_mul_lcm.
  rewrite Z.mul_comm. apply Z.div_mul.
  intros Hg. apply Z.gcd_eq_0_l in Hg. contradiction.
Qed.

Lemma gcd_PyInt (a b : Z) : gcd (PyInt a) (PyInt b) = Ret (PyInt (Z.gcd a b)).
Proof. reflexivity. Qed.

Lemma lcm_int (x y : numeric) (a b : Z) :
  int x = Ret a -> int y = Ret b -> lcm x y = Ret (PyInt (Z.lcm a b)).
Proof.
  intros Hx Hy. rewrite <- lcm_PyInt. unfold lcm. rewrite Hx, Hy. reflexivity.
Qed.

Lemma gcd_int (x y : numeric) (a b : Z) :
  int x = Ret a -> int y = Ret b -> gcd x y = Ret (PyInt (Z.gcd a b)).
Proof.
  intros Hx Hy. unfold gcd. rewrite Hx, Hy. reflexivity.
Qed.

(** X1. [lcm] returns the least common multiple of its truncated
    arguments: a non-negative common multiple that divides every common
    multiple, and 0 exactly when one of them is 0 (no division by the
    zero gcd is ever attempted). *)
Theorem X1_lcm_least_common_multiple (x y : numeric) (a b : Z) :
  int x = Ret a -> int y = Ret b ->
  exists l : Z,
    lcm x y = Ret (PyInt l) /\
    0 <= l /\ (a | l) /\ (b | l) /\
    (forall m : Z, (a | m) -> (b | m) -> (l | m)) /\
    (l = 0 <-> a = 0 \/ b = 0).
Proof.
  intros Hx Hy. exists (Z.lcm a b).
  split; [exact (lcm_int x y a b Hx Hy)|].
  split; [apply Z.lcm_nonneg|].
  split; [apply Z.divide_lcm_l|].
  split; [apply Z.divide_lcm_r|].
  split; [intros m; apply Z.lcm_least|].
  apply Z.lcm_eq_0.
Qed.

(** X1 at [lcm(4.0 + fraction, 6)], here [lcm(5.9, 6)]. *)
Lemma X1_witness :
  exists l : Z,
    lcm (PyFloat float_5_9) (PyInt 6) = Ret (PyInt l) /\
    0 <= l /\ (5 | l) /\ (6 | l) /\
    (forall m : Z, (5 | m) -> (6 | m) -> (l | m)) /\
    (l = 0 <-> 5 = 0 \/ 6 = 0).
Proof.
  exact (X1_lcm_least_common_multiple
           (PyFloat float_5_9) (PyInt 6) 5 6 eq_refl eq_refl).
Defined.

(** X2. [gcd] returns the greatest common divisor of its truncated
    arguments, non-negative, and [gcd(x, y) * lcm(x, y)] is the absolute
    value of their product. *)
Theorem X2_gcd_times_lcm (x y : numeric) (a b : Z) :
  int x = Ret a -> int y = Ret b ->
  exists g l : Z,
    gcd x y = Ret (PyInt g) /\ lcm x y = Ret (PyInt l) /\
    g * l = Z.abs (a * b) /\
    0 <= g /\ (g | a) /\ (g | b) /\
    (forall d : Z, (d | a) -> (d | b) -> (d | g)).
Proof.
  intros Hx Hy. exists (Z.gcd a b), (Z.lcm a b).
  split; [exact (gcd_int x y a b Hx Hy)|].
  split; [exact (lcm_int x y a b Hx Hy)|].
  split; [apply gcd_mul_lcm|].
  split; [apply Z.gcd_nonneg|].
  split; [apply Z.gcd_divide_l|].
  split; [apply Z.gcd_divide_r|].
  intros d. apply Z.gcd_greatest.
Qed.


(** X2 at [gcd(-12, 18)] and [lcm(-12, 18)]. *)
Lemma X2_witness :
  exists g l : Z,
    gcd (PyInt (-12)) (PyInt 18) = Ret (PyInt g) /\
    lcm (PyInt (-12)) (PyInt 18) = Ret (PyInt l) /\
    g * l = Z.abs (-12 * 18) /\
    0 <= g /\ (g | -12) /\ (g | 18) /\
    (forall d : Z, (d | -12) -> (d | 18) -> (d | g)).
Proof.
  exact (X2_gcd_times_lcm (PyInt (-12)) (PyInt 18) (-12) 18 eq_refl eq_refl).
Defined.

Lemma in_range (lo hi i : Z) : In i (range lo hi) <-> lo <= i < hi.
Proof.
  unfold range. rewrite in_map_iff. split.
  - intros (n & <- & Hn). apply in_seq in Hn. lia.
  - intros Hi. exists (Z.to_nat (i - lo)). split; [lia|]. apply in_seq. lia.
Qed.

(** Trial division up to [k] finds a divisor exactly when there is one
    between 2 and [k]. *)
Lemma trial_division (n k : Z) :
  existsb (fun i => n mod i =? 0) (range 2 (k + 1)) = true
  <-> exists i, 2 <= i <= k /\ (i | n).
Proof.
  rewrite existsb_exists. split.
  - intros (i & Hi & Hmod). apply in_range in Hi. apply Z.eqb_eq in Hmod.
    exists i. split; [lia|]. apply Z.mod_divide; [lia|exact Hmod].
  - intros (i & Hi & Hdiv). exists i. split; [apply in_range; lia|].
    apply Z.eqb_eq. apply Z.mod_divide; [lia|exact Hdiv].
Qed.

(** With [k] the integer square root of [n], trial division up to [k]
    finds a divisor exactly when [n] is not prime. *)
Lemma trial_division_prime (n k : Z) :
  2 <= n -> 0 <= k -> k * k <= n < (k + 1) * (k + 1) ->
  existsb (fun i => n mod i =? 0) (range 2 (k + 1)) = false <-> Z.prime n.
Proof.
  intros Hn Hk0 [Hlo Hhi]. rewrite <- not_true_iff_false, trial_division.
  split.
  - intros Hnone. split; [lia|]. intros d Hd [e He]. apply Hnone.
    assert (2 <= e) by nia.
    destruct (Z_le_gt_dec d e) as [Hle|Hgt].
    + exists d. split; [nia|]. exists e. exact He.
    + exists e. split; [nia|]. exists d. lia.
  - intros [_ Hp] (i & Hi & Hdiv). apply (Hp i); [nia|exact Hdiv].
Qed.

Section IsPrime.
Variable float_pow : spec_float -> spec_float -> spec_float.

(** X3. [isPrime] answers 1 exactly on the primes, provided that for an
    argument truncating to [n >= 2] the float expression
    [int(n ** 0.5)] yields the integer square root of [n]; below 2
    (negative numbers, 0, 1) it answers 0 without computing a root. *)
Theorem X3_is_prime_correct_when_root_is_exact (x : numeric) (n : Z) :
  int x = Ret n ->
  (2 <= n ->
   exists (r : spec_float) (k : Z),
     pow_half float_pow n = Ret r /\ int_of_float r = Ret k /\
     0 <= k /\ k * k <= n < (k + 1) * (k + 1)) ->
  (Z.prime n /\ is_prime float_pow x = Ret (PyInt 1)) \/
  (~ Z.prime n /\ is_prime float_pow x = Ret (PyInt 0)).
Proof.
  intros Hx Hroot.
  unfold is_prime. rewrite Hx. cbn [mbind result_bind bind].
  destruct (Z.ltb_spec n 2) as [Hsmall|Hn].
  { right. split; [|reflexivity]. intros [Hgt _]. lia. }
  destruct (Hroot Hn) as (r & k & Hr & Hk & Hk0 & Hsq).
  rewrite Hr. cbn [mbind result_bind bind].
  rewrite Hk. cbn [mbind result_bind bind].
  pose proof (trial_division_prime n k Hn Hk0 Hsq) as Htd.
  destruct (existsb _ _).
  - right. split; [|reflexivity]. intros Hp. apply Htd in Hp. discriminate.
  - left. split; [|reflexivity]. apply Htd. reflexivity.
Qed.

End IsPrime.

(** X3 at 97, with the float power computed as the correctly rounded
    square root. *)
Lemma X3_witness :
  (Z.prime 97 /\
   is_prime (fun f _ => SFsqrt prec emax f) (PyInt 97) = Ret (PyInt 1)) \/
  (~ Z.prime 97 /\
   is_prime (fun f _ => SFsqrt prec emax f) (PyInt 97) = Ret (PyInt 0)).
Proof.
  apply (X3_is_prime_correct_when_root_is_exact
           (fun f _ => SFsqrt prec emax f) (PyInt 97) 97 eq_refl).
  intros _.
  exists (SFsqrt prec emax (binary_normalize prec emax 97 0 false)), 9%Z.
  split; [reflexivity|]. split; [reflexivity|]. lia.
Defined.

(** A float strictly between -1 and 0 truncates to 0. *)
Lemma int_of_float_small (s : bool) (m : positive) (e : Z) :
  Z.pos m < 2 ^ (- e) -> int_of_float (S754_finite s m e) = Ret 0.
Proof.
  intros Hm. cbn [int_of_float].
  assert (He : e < 0).
  { destruct (Z_lt_ge_dec e 0) as [|Hge]; [assumption|].
    assert (2 ^ (- e) <= 1); [|lia].
    destruct (Z.eq_dec e 0) as [->|]; [cbn; lia|].
    rewrite Z.pow_neg_r; lia. }
  rewrite Z.shiftl_div_pow2 by lia.
  rewrite Z.div_small by lia. destruct s; reflexivity.
Qed.

(** X4. The domain of [factorial] and the branch of [fib] are decided
    after truncation: a negative float above -1 truncates to 0, so
    [factorial] returns 1 and [fib] returns 0 on it, while on every
    negative int [factorial] raises and [fib] returns the argument. *)
Theorem X4_fractions_above_minus_one_are_accepted (m : positive) (e : Z) :
  Z.pos m < 2 ^ (- e) ->
  factorial (PyFloat (S754_finite true m e)) = Ret (PyInt 1) /\
  fibonacci (PyFloat (S754_finite true m e)) = Ret (PyInt 0) /\
  (forall n : Z, n < 0 -> factorial (PyInt n) = Raise ValueError) /\
  (forall n : Z, n < 0 -> fibonacci (PyInt n) = Ret (PyInt n)).
Proof.
  intros Hm. pose proof (int_of_float_small true m e Hm) as H0.
  split; [unfold factorial; cbn [int]; rewrite H0; reflexivity|].
  split; [unfold fibonacci; cbn [int]; rewrite H0; reflexivity|].
  split.
  - intros n Hn. unfold factorial, math_factorial.
    cbn [int mbind result_bind bind].
    destruct (Z.ltb_spec n 0); [reflexivity|lia].
  - intros n Hn. unfold fibonacci. cbn [int mbind result_bind bind].
    destruct (Z.leb_spec n 1); [reflexivity|lia].
Qed.

(** X4 at [-0.5]. *)
Lemma X4_witness :
  factorial (PyFloat float_m0_5) = Ret (PyInt 1) /\
  fibonacci (PyFloat float_m0_5) = Ret (PyInt 0).
Proof.
  pose proof (X4_fractions_above_minus_one_are_accepted
                4503599627370496 (-53) ltac:(vm_compute; reflexivity))
    as (Hf & Hb & _).
  split; assumption.
Defined.

(** X5. [PHI] is the double nearest to the golden ratio: the root of
    [x * x - x - 1] above 1 lies within half a unit in the last place
    (2^-53) of the value [phi()] returns. *)
Theorem X5_phi_is_nearest_double_to_golden_ratio :
  exists f : spec_float,
    phi = Ret (PyFloat f) /\
    let q := float_value f in
    let h := (1 # 9007199254740992)%Q in
    (1 < q - h /\
     (q - h) * (q - h) - (q - h) - 1 < 0 /\
     0 < (q + h) * (q + h) - (q + h) - 1)%Q.
Proof.
  eexists. split; [vm_compute; reflexivity|].
  cbv zeta. repeat split; vm_compute; reflexivity.
Qed.

End MathExtMore.

(* ===================================================================== *)
(** * Further properties of custom_decoder.py                             *)
(* ===================================================================== *)

Section CustomDecoderMore.
Import Py CustomDecoder.

Lemma startswith_app (s prefix : str) :
  startswith s prefix = true <-> exists rest, s = prefix ++ rest.
Proof.
  revert s. induction prefix as [|p prefix IH]; intros s.
  - split; [intros _; exists s; reflexivity|intros _; destruct s; reflexivity].
  - destruct s as [|c s]; cbn [startswith].
    + split; [discriminate|intros [rest Hrest]; discriminate].
    + rewrite andb_true_iff, Z.eqb_eq, IH. split.
      * intros [-> [rest ->]]. exists rest. reflexivity.
      * intros [rest [= -> ->]]. split; [reflexivity|]. exists rest. reflexivity.
Qed.

(** X6. The example decoder emits on exactly the inputs that start with
    ["EXAMPLE:"], and then one interpretation whose String value put
    back behind the prefix is the input. *)
Theorem X6_decode_example_strips_prefix :
  (forall content : str,
     decode_example (lit "EXAMPLE:" ++ content) =
       [ {| value := CoreValue.String content;
            confidence := 0.95;
            description := lit "Example format: " ++ content |} ]) /\
  (forall (s : str) (i : Interpretation),
     In i (decode_example s) ->
     exists content,
       s = lit "EXAMPLE:" ++ content /\
       value i = CoreValue.String content /\
       decode_example s = [i]) /\
  (forall s : str,
     decode_example s = [] <-> ~ exists content, s = lit "EXAMPLE:" ++ content).
Proof.
  assert (Hemit : forall content : str,
     decode_example (lit "EXAMPLE:" ++ content) =
       [ {| value := CoreValue.String content;
            confidence := 0.95;
            description := lit "Example format: " ++ content |} ]).
  { intros content. unfold decode_example. cbv zeta.
    assert (Hsw : startswith (lit "EXAMPLE:" ++ content) (lit "EXAMPLE:")
                  = true)
      by (apply startswith_app; exists content; reflexivity).
    rewrite Hsw. cbn [negb]. rewrite drop_app_length. reflexivity. }
  split; [exact Hemit|]. split.
  - intros s i Hi. unfold decode_example in Hi.
    destruct (startswith s (lit "EXAMPLE:")) eqn:E; cbn [negb] in Hi;
      [|destruct Hi].
    apply startswith_app in E. destruct E as [content ->].
    exists content. rewrite Hemit.
    destruct Hi as [<-|[]]. repeat split.
  - intros s. unfold decode_example.
    destruct (startswith s (lit "EXAMPLE:")) eqn:E; cbn [negb].
    + apply startswith_app in E. split; [discriminate|].
      intros Hno. destruct (Hno E).
    + split; [|reflexivity]. intros _ Hex.
      apply startswith_app in Hex. congruence.
Qed.

Lemma valid_chars_ascii (c : Z) : c ∈ valid_chars -> 0 <= c < 128.
Proof.
  unfold valid_chars. rewrite elem_of_list_to_set.
  revert c. apply Forall_forall.
  match goal with
  | |- Forall _ ?l => let l' := eval vm_compute in l in change l with l'
  end.
  repeat (constructor; [lia|]). constructor.
Qed.

Lemma rot13_fixed_pointwise (s : str) :
  rot13 s = s -> forall c, In c s -> rot13_char c = c.
Proof.
  unfold rot13. induction s as [|a s IH]; cbn [List.map]; intros H c Hc.
  - destruct Hc.
  - injection H as Ha Hs. destruct Hc as [<-|Hc]; [exact Ha|].
    apply IH; assumption.
Qed.

Section Unicode.
Variable unicode_isalpha : Z -> bool.

Lemma ascii_letter_moves (c : Z) :
  0 <= c < 128 -> isalpha unicode_isalpha c = true -> rot13_char c <> c.
Proof.
  intros Hc Ha Hfix.
  pose (P := fun k : Z => implb (isalpha unicode_isalpha k)
                                (negb (rot13_char k =? k))).
  assert (HP : forallb P (range 0 128) = true) by (vm_compute; reflexivity).
  pose proof (forallb_range P 0 128 HP c Hc) as H. unfold P in H.
  rewrite Ha, Hfix, Z.eqb_refl in H. discriminate.
Qed.

Lemma letter_count_nonneg (s : str) : 0 <= letter_count unicode_isalpha s.
Proof.
  unfold letter_count. induction s as [|c s IH]; cbn [fold_right]; [lia|].
  destruct (isalpha unicode_isalpha c); lia.
Qed.

Lemma letter_count_pos (s : str) :
  0 < letter_count unicode_isalpha s ->
  exists c, In c s /\ isalpha unicode_isalpha c = true.
Proof.
  unfold letter_count. induction s as [|c s IH]; cbn [fold_right]; [lia|].
  destruct (isalpha unicode_isalpha c) eqn:E.
  - intros _. exists c. split; [left; reflexivity|exact E].
  - intros H. destruct (IH H) as (d & Hd & Hda).
    exists d. split; [right; exact Hd|exact Hda].
Qed.

(** The letter count never exceeds the length. *)
Lemma letter_count_le_length (s : str) :
  letter_count unicode_isalpha s <= Z.of_nat (length s).
Proof.
  unfold letter_count. induction s as [|c s IH]; cbn [fold_right length]; [lia|].
  destruct (isalpha unicode_isalpha c); lia.
Qed.

(** X7. The rot13 decoder emits exactly when the input has at least
    three letters and only valid characters; the final test for an
    unchanged text never fires, because such an input holds an ASCII
    letter and ROT13 moves every ASCII letter. *)
Theorem X7_decode_rot13_emits_iff_letters_and_valid (s : str) :
  (3 <= letter_count unicode_isalpha s /\
   Forall (fun c => c ∈ valid_chars) s ->
   rot13 s <> s /\
   decode_rot13 unicode_isalpha s =
     [ {| value := CoreValue.String (rot13 s);
          confidence := 0.3;
          description := lit "ROT13 decoded: " ++ rot13 s |} ]) /\
  (~ (3 <= letter_count unicode_isalpha s /\
      Forall (fun c => c ∈ valid_chars) s) ->
   decode_rot13 unicode_isalpha s = []).
Proof.
  split.
  - intros [Hcount Hvalid].
    assert (Hne : rot13 s <> s).
    { intros Hfix.
      destruct (letter_count_pos s ltac:(lia)) as (c & Hc & Ha).
      refine (ascii_letter_moves c _ Ha (rot13_fixed_pointwise s Hfix c Hc)).
      apply valid_chars_ascii. rewrite Forall_forall in Hvalid.
      apply Hvalid. apply list_elem_of_In. exact Hc. }
    split; [exact Hne|]. unfold decode_rot13.
    destruct (Z.ltb_spec (letter_count unicode_isalpha s) 3); [lia|].
    assert (Hall : forallb (fun c => bool_decide (c ∈ valid_chars)) s = true).
    { apply forallb_forall. intros c Hc. apply bool_decide_eq_true.
      rewrite Forall_forall in Hvalid. apply Hvalid.
      apply list_elem_of_In. exact Hc. }
    rewrite Hall. cbn [negb]. case_bool_decide; [contradiction|reflexivity].
  - intros Hnot. unfold decode_rot13.
    destruct (Z.ltb_spec (letter_count unicode_isalpha s) 3); [reflexivity|].
    destruct (forallb _ s) eqn:Hall; cbn [negb]; [|reflexivity].
    exfalso. apply Hnot. split; [assumption|].
    apply Forall_forall. intros c Hc. rewrite forallb_forall in Hall.
    apply list_elem_of_In in Hc. specialize (Hall c Hc).
    apply bool_decide_eq_true in Hall. exact Hall.
Qed.

(** X8. The two bundled decoders never both emit on one input: the
    colon of the prefix ["EXAMPLE:"] is not a valid ROT13 character. *)
Theorem X8_bundled_decoders_are_exclusive (s : str) :
  decode_example s = [] \/ decode_rot13 unicode_isalpha s = [].
Proof.
  unfold decode_example.
  destruct (startswith s (lit "EXAMPLE:")) eqn:E; cbn [negb];
    [right|left; reflexivity].
  apply startswith_app in E. destruct E as [rest ->].
  unfold decode_rot13.
  destruct (_ <? 3); [reflexivity|].
  assert (Hbad : forallb (fun c => bool_decide (c ∈ valid_chars))
                   (lit "EXAMPLE:" ++ rest) = false).
  { apply not_true_iff_false. intros Hall. rewrite forallb_forall in Hall.
    specialize (Hall 58 ltac:(apply in_or_app; left; vm_compute; tauto)).
    vm_compute in Hall. discriminate. }
  rewrite Hbad. reflexivity.
Qed.

End Unicode.

(** X9. ROT13 works position by position and keeps the length; it
    leaves every character that is not an ASCII letter as it is, and
    moves every ASCII letter 13 places within its own case. *)
Theorem X9_rot13_shape (s : str) :
  length (rot13 s) = length s /\
  (forall (i : nat) (c : Z), s !! i = Some c ->
     rot13 s !! i = Some (rot13_char c)) /\
  (forall c : Z,
     (97 <= c <= 122 ->
        97 <= rot13_char c <= 122 /\ (rot13_char c - c) mod 26 = 13) /\
     (65 <= c <= 90 ->
        65 <= rot13_char c <= 90 /\ (rot13_char c - c) mod 26 = 13) /\
     (~ 97 <= c <= 122 -> ~ 65 <= c <= 90 -> rot13_char c = c)).
Proof.
  split; [apply length_map|]. split.
  - unfold rot13. induction s as [|a s IH]; intros [|i] c Hi;
      cbn in Hi |- *; try discriminate.
    + injection Hi as ->. reflexivity.
    + apply IH. exact Hi.
  - intros c.
    destruct (Z.lt_ge_cases c 0) as [Hneg|Hnn];
      [rewrite rot13_char_outside_ascii by lia; lia|].
    destruct (Z.lt_ge_cases c 128) as [Hlt|Hge];
      [|rewrite rot13_char_outside_ascii by lia; lia].
    pose (P := fun k : Z =>
      let r := rot13_char k in
      if (97 <=? k) && (k <=? 122)
      then (97 <=? r) && (r <=? 122) && ((r - k) mod 26 =? 13)
      else if (65 <=? k) && (k <=? 90)
      then (65 <=? r) && (r <=? 90) && ((r - k) mod 26 =? 13)
      else r =? k).
    assert (HP : forallb P (range 0 128) = true) by (vm_compute; reflexivity).
    pose proof (forallb_range P 0 128 HP c ltac:(lia)) as H.
    unfold P in H. cbv zeta in H.
    destruct (Z.leb_spec 97 c), (Z.leb_spec c 122),
             (Z.leb_spec 65 c), (Z.leb_spec c 90);
      cbn [andb] in H;
      repeat (apply andb_true_iff in H; destruct H as [H ?]);
      repeat match goal with
             | H : (_ <=? _) = true |- _ => apply Z.leb_le in H
             | H : (_ =? _) = true |- _ => apply Z.eqb_eq in H
             end;
      repeat split; intros; try lia.
Qed.

(** X7 at ["Uryyb, Jbeyq!"]: ten letters, all characters valid. *)
Lemma X7_witness :
  rot13 (lit "Uryyb, Jbeyq!") <> lit "Uryyb, Jbeyq!" /\
  decode_rot13 (fun _ => false) (lit "Uryyb, Jbeyq!") =
    [ {| value := CoreValue.String (rot13 (lit "Uryyb, Jbeyq!"));
         confidence := 0.3;
         description := lit "ROT13 decoded: " ++ rot13 (lit "Uryyb, Jbeyq!") |} ].
Proof.
  apply (proj1 (X7_decode_rot13_emits_iff_letters_and_valid
                  (fun _ => false) (lit "Uryyb, Jbeyq!"))).
  split; [vm_compute; discriminate|].
  apply Forall_forall. intros c Hc.
  apply list_elem_of_In in Hc.
  apply (bool_decide_eq_true_1 (c ∈ valid_chars)).
  revert c Hc. apply forallb_forall. vm_compute. reflexivity.
Defined.

End CustomDecoderMore.

(* ===================================================================== *)
(** * Further properties of checksums.py                                  *)
(* ===================================================================== *)

Section ChecksumsMore.
Import Py Checksums.

Lemma hex_digit_value_hex_digit (d : Z) :
  0 <= d < 16 -> hex_digit_value (hex_digit d) = Some d.
Proof.
  intros Hd.
  apply (forallb_range
           (fun k => match hex_digit_value (hex_digit k) with
                     | Some v => v =? k
                     | None => false
                     end) 0 16) in Hd; [|vm_compute; reflexivity].
  destruct (hex_digit_value (hex_digit d)); [|discriminate].
  apply Z.eqb_eq in Hd. congruence.
Qed.

Lemma parse_hex_from_app (ds rest : str) (acc : Z) :
  parse_hex_from acc (ds ++ rest) =
    match parse_hex_from acc ds with
    | Some v => parse_hex_from v rest
    | None => None
    end.
Proof.
  revert acc. induction ds as [|c ds IH]; intros acc; cbn [parse_hex_from app].
  - reflexivity.
  - destruct (hex_digit_value c); [apply IH|reflexivity].
Qed.

(** The digits [hex_digits] puts in front of [acc]: they read back as
    [z], and there are at most [k] of them when [z < 16 ^ k]. *)
Lemma hex_digits_spec (fuel : nat) (z : Z) (acc : str) :
  0 <= z < 16 ^ Z.of_nat fuel ->
  exists ds : str,
    hex_digits fuel z acc = ds ++ acc /\
    (forall p, parse_hex_from p ds = Some (p * 16 ^ Z.of_nat (length ds) + z)) /\
    (forall k : nat, z < 16 ^ Z.of_nat k -> (length ds <= k)%nat).
Proof.
  revert z acc. induction fuel as [|fuel IH]; intros z acc Hz.
  - exists []. cbn [hex_digits Z.of_nat] in *.
    assert (z = 0) by (cbn in Hz; lia). subst z.
    split; [reflexivity|]. split; [intros p; cbn; f_equal; lia|].
    intros k _. cbn. lia.
  - cbn [hex_digits]. destruct (Z.eqb_spec z 0) as [->|Hnz].
    + exists []. split; [reflexivity|].
      split; [intros p; cbn; f_equal; lia|]. intros k _. cbn. lia.
    + assert (Hq : 0 <= z / 16 < 16 ^ Z.of_nat fuel).
      { split; [apply Z.div_pos; lia|].
        apply Z.div_lt_upper_bound; [lia|].
        rewrite Nat2Z.inj_succ, Z.pow_succ_r in Hz; lia. }
      destruct (IH (z / 16) (hex_digit (z mod 16) :: acc) Hq)
        as (ds & Heq & Hval & Hlen).
      exists (ds ++ [hex_digit (z mod 16)]).
      split; [rewrite Heq, <- app_assoc; reflexivity|]. split.
      * intros p. rewrite parse_hex_from_app, Hval. cbn [parse_hex_from].
        rewrite hex_digit_value_hex_digit by (apply Z.mod_pos_bound; lia).
        f_equal. rewrite length_app. cbn [length].
        rewrite Nat2Z.inj_add, Z.pow_add_r by lia.
        change (16 ^ Z.of_nat 1) with 16.
        pose proof (Z.div_mod z 16 ltac:(lia)). lia.
      * intros k Hk. rewrite length_app. cbn [length].
        destruct k as [|k]; [cbn in Hk; lia|].
        assert (z / 16 < 16 ^ Z.of_nat k).
        { apply Z.div_lt_upper_bound; [lia|].
          rewrite Nat2Z.inj_succ, Z.pow_succ_r in Hk; lia. }
        specialize (Hlen k ltac:(assumption)). lia.
Qed.

Lemma parse_hex_from_zeros (n : nat) (rest : str) :
  parse_hex_from 0 (replicate n (ord "0") ++ rest) = parse_hex_from 0 rest.
Proof.
  induction n as [|n IH]; [reflexivity|].
  cbn [replicate app parse_hex_from]. exact IH.
Qed.

Lemma format_08x_spec (z : Z) :
  0 <= z < 2 ^ 32 ->
  length (format_08x z) = 8%nat /\ parse_hex (format_08x z) = Some z.
Proof.
  intros Hz. unfold format_08x.
  assert (Hfuel : 0 <= z < 16 ^ Z.of_nat (Z.to_nat (Z.log2 z + 1))).
  { split; [lia|]. pose proof (Z.log2_nonneg z).
    rewrite Z2Nat.id by lia.
    destruct (Z.eq_dec z 0) as [->|]; [cbn; lia|].
    pose proof (Z.log2_spec z ltac:(lia)) as [_ Hup].
    rewrite <- Z.add_1_r in Hup.
    eapply Z.lt_le_trans; [exact Hup|].
    apply Z.pow_le_mono_l. lia. }
  destruct (hex_digits_spec _ z [] Hfuel) as (ds & Heq & Hval & Hlen).
  rewrite Heq, app_nil_r.
  assert (H8 : z < 16 ^ Z.of_nat 8)
    by (change (16 ^ Z.of_nat 8) with (2 ^ 32); lia).
  specialize (Hlen 8%nat H8).
  split.
  - rewrite length_app, length_replicate. lia.
  - unfold parse_hex. rewrite parse_hex_from_zeros, Hval. f_equal; lia.
Qed.

Variable zlib_crc32 : list Byte.byte -> Z.
Variables hashlib_md5 hashlib_sha1 hashlib_sha256 hashlib_sha512
  : list Byte.byte -> str.
Variable hashlib_blake2b : list Byte.byte -> Z -> str.

(** X10. For a bytes value within the size limit the crc32 trait
    returns ["crc32: "] followed by exactly eight lower-case hexadecimal
    digits, which read back as the checksum modulo 2^32. *)
Theorem X10_crc32_line_is_eight_hex_digits (b : list Byte.byte) :
  len b <= 10_000_000 ->
  exists digits : str,
    compute_crc32 zlib_crc32 (PyBytes b) = Some (lit "crc32: " ++ digits) /\
    length digits = 8%nat /\
    parse_hex digits = Some (zlib_crc32 b mod 2 ^ 32).
Proof.
  intros Hlen. exists (format_08x (Z.land (zlib_crc32 b) 0xffffffff)).
  split.
  - unfold compute_crc32. rewrite gtb_within by assumption. reflexivity.
  - change 0xffffffff with (Z.ones 32). rewrite Z.land_ones by lia.
    apply format_08x_spec. apply Z.mod_pos_bound. lia.
Qed.

(** X11. crc32, md5 and sha1 report together, exactly on bytes values
    of at most 10,000,000 bytes; sha256, sha512 and blake2b-256 report
    together, exactly on bytes values of at most 1,000,000 bytes; so
    whenever sha256 reports, all six do. *)
Theorem X11_traits_report_in_nested_groups (v : object) :
  (is_Some (compute_crc32 zlib_crc32 v) <->
     exists b, v = PyBytes b /\ len b <= 10_000_000) /\
  (is_Some (compute_md5 hashlib_md5 v) <->
     is_Some (compute_crc32 zlib_crc32 v)) /\
  (is_Some (compute_sha1 hashlib_sha1 v) <->
     is_Some (compute_crc32 zlib_crc32 v)) /\
  (is_Some (compute_sha256 hashlib_sha256 v) <->
     exists b, v = PyBytes b /\ len b <= 1_000_000) /\
  (is_Some (compute_sha512 hashlib_sha512 v) <->
     is_Some (compute_sha256 hashlib_sha256 v)) /\
  (is_Some (compute_blake2b hashlib_blake2b v) <->
     is_Some (compute_sha256 hashlib_sha256 v)) /\
  (is_Some (compute_sha256 hashlib_sha256 v) ->
     is_Some (compute_crc32 zlib_crc32 v)).
Proof.
  assert (Hnone : forall A, ~ is_Some (@None A))
    by (intros A [? H]; discriminate H).
  assert (Hsome : forall A (a : A), is_Some (Some a)) by (intros; eexists; reflexivity).
  destruct v as [b| | |]; cbn;
    [|repeat split; intros H;
      solve [destruct (Hnone _ H) | destruct H as (? & H & _); discriminate H]..].
  destruct (Z.gtb_spec (len b) 10_000_000) as [Ha|Ha],
           (Z.gtb_spec (len b) 1_000_000) as [Hb|Hb];
    try lia;
    repeat split; intros H;
      solve [ destruct (Hnone _ H)
            | apply Hsome
            | destruct H as (? & [= <-] & ?); lia
            | exists b; split; [reflexivity|lia] ].
Qed.

End ChecksumsMore.

(** X10 at the five bytes of ["hello"], with the checksum the docstring
    quotes. *)
Lemma X10_witness :
  exists digits : Py.str,
    Checksums.compute_crc32 (fun _ => 0x3610a686)
      (Checksums.PyBytes [Byte.x68; Byte.x65; Byte.x6c; Byte.x6c; Byte.x6f])
    = Some (Py.lit "crc32: " ++ digits) /\
    length digits = 8%nat /\
    parse_hex digits = Some (0x3610a686 mod 2 ^ 32).
Proof.
  apply (X10_crc32_line_is_eight_hex_digits (fun _ => 0x3610a686)
           [Byte.x68; Byte.x65; Byte.x6c; Byte.x6c; Byte.x6f]).
  vm_compute. discriminate.
Defined.

(* ===================================================================== *)
(** * Further properties of crypto.py                                     *)
(* ===================================================================== *)

Section CryptoMore.
Import Py Crypto.

Lemma get_raises (o : json) (k : string) (default : json) (e : exn) :
  get o k default = Raise e -> e = AttributeError.
Proof. destruct o; cbn; congruence. Qed.

(** What a completed request stores: one entry per currency, read from
    the answer with [None] for whatever is missing. *)
Lemma fetch_upstream_Ret (resp : response) (rates : gmap string json) :
  fetch_upstream resp = Ret rates ->
  exists data bitcoin btc ethereum eth solana sol,
    resp = Parsed data /\
    get data "bitcoin" (JObj ∅) = Ret bitcoin /\ get bitcoin "usd" JNull = Ret btc /\
    get data "ethereum" (JObj ∅) = Ret ethereum /\ get ethereum "usd" JNull = Ret eth /\
    get data "solana" (JObj ∅) = Ret solana /\ get solana "usd" JNull = Ret sol /\
    rates = <["BTC" := btc]> (<["ETH" := eth]> (<["SOL" := sol]> ∅)).
Proof.
  destruct resp as [| | |data|e]; cbn; try discriminate.
  destruct (get data "bitcoin" _) as [b|] eqn:E1; cbn; [|discriminate].
  destruct (get b "usd" _) as [btc|] eqn:E2; cbn; [|discriminate].
  destruct (get data "ethereum" _) as [e|] eqn:E3; cbn; [|discriminate].
  destruct (get e "usd" _) as [eth|] eqn:E4; cbn; [|discriminate].
  destruct (get data "solana" _) as [s|] eqn:E5; cbn; [|discriminate].
  destruct (get s "usd" _) as [sol|] eqn:E6; cbn; [|discriminate].
  intros [= <-]. exists data, b, btc, e, eth, s, sol. repeat split; assumption.
Qed.

Lemma fetch_upstream_Raise (resp : response) (e : exn) :
  fetch_upstream resp = Raise e ->
  resp = NetworkError /\ e = URLError \/
  resp = NotUTF8 /\ e = UnicodeDecodeError \/
  resp = NotJSON /\ e = JSONDecodeError \/
  resp = Raised e \/
  (e = AttributeError /\ exists data, resp = Parsed data).
Proof.
  destruct resp as [| | |data|e']; cbn.
  - intros [= <-]. left. split; reflexivity.
  - intros [= <-]. right. left. split; reflexivity.
  - intros [= <-]. right. right. left. split; reflexivity.
  - intros H. right. right. right. right.
    split; [|exists data; reflexivity].
    repeat match type of H with
           | context [get ?o ?k ?d] =>
               let E := fresh "E" in
               destruct (get o k d) eqn:E; cbn in H;
               [|injection H as <-; exact (get_raises _ _ _ _ E)]
           end.
    discriminate H.
  - intros [= <-]. right. right. right. left. reflexivity.
Qed.

Lemma truthy_false (d : gmap string json) : truthy d = false <-> d = ∅.
Proof.
  unfold truthy. rewrite negb_false_iff, Nat.eqb_eq. apply map_size_empty_iff.
Qed.

Lemma truthy_true (d : gmap string json) : truthy d = true <-> d <> ∅.
Proof.
  rewrite <- truthy_false. destruct (truthy d); split; congruence.
Qed.

(** One step of the fetcher: the globals stay, or a completed request
    replaces them. *)
Lemma fetch_rates_state (now : spec_float) (resp : response) (st : state) :
  state_after (_fetch_rates now resp st) = st \/
  exists rates, fetch_upstream resp = Ret rates /\
    state_after (_fetch_rates now resp st)
      = {| _cache := rates; _cache_time := now |}.
Proof.
  unfold _fetch_rates. destruct (truthy (_cache st) && _); [left; reflexivity|].
  destruct (fetch_upstream resp) as [rates|e] eqn:E.
  - right. exists rates. split; reflexivity.
  - left. destruct (caught e); reflexivity.
Qed.

(** X12. Whatever calls are made and whatever upstream answers, the
    cache of a module that started fresh is empty or has exactly the
    keys BTC, ETH and SOL; and a cache that is not empty never becomes
    empty again. *)
Theorem X12_cache_is_empty_or_has_the_three_codes :
  (forall calls : list (spec_float * response),
     let st := final_state calls initial in
     _cache st = ∅ \/ dom (_cache st) = {[ "BTC"; "ETH"; "SOL" ]}) /\
  (forall (calls : list (spec_float * response)) (st : state),
     _cache st <> ∅ -> _cache (final_state calls st) <> ∅).
Proof.
  assert (Hstep : forall now resp st,
            (_cache st = ∅ \/ dom (_cache st) = {[ "BTC"; "ETH"; "SOL" ]}) ->
            let st' := state_after (_fetch_rates now resp st) in
            _cache st' = ∅ \/ dom (_cache st') = {[ "BTC"; "ETH"; "SOL" ]}).
  { intros now resp st Hinv. cbv zeta.
    destruct (fetch_rates_state now resp st) as [->|(rates & Hup & ->)];
      [exact Hinv|].
    right. cbn [_cache].
    apply fetch_upstream_Ret in Hup.
    destruct Hup as (? & ? & btc & ? & eth & ? & sol & _ & _ & _ & _ & _ & _ & _ & ->).
    rewrite !dom_insert_L, dom_empty_L. set_solver. }
  split.
  - intros calls. cbv zeta.
    assert (Hgen : forall st,
              (_cache st = ∅ \/ dom (_cache st) = {[ "BTC"; "ETH"; "SOL" ]}) ->
              _cache (final_state calls st) = ∅ \/
              dom (_cache (final_state calls st)) = {[ "BTC"; "ETH"; "SOL" ]}).
    { induction calls as [|[now resp] calls IH]; intros st Hinv; [exact Hinv|].
      cbn [final_state]. apply IH. apply Hstep. exact Hinv. }
    apply Hgen. left. reflexivity.
  - intros calls. induction calls as [|[now resp] calls IH]; intros st Hne;
      [exact Hne|].
    cbn [final_state]. apply IH.
    destruct (fetch_rates_state now resp st) as [->|(rates & Hup & ->)];
      [exact Hne|].
    cbn [_cache]. apply truthy_true. exact (fetch_upstream_truthy _ _ Hup).
Qed.

(** X13. While the cache is empty or expired (the guard's binary64
    difference [now - _cache_time] is not less than 60) and upstream
    keeps failing with an error the [except] clause names, every call
    goes upstream once, returns the cache as it is and leaves the
    globals untouched: a failure is not remembered, so the next call
    tries again. *)
Theorem X13_failed_refresh_serves_cache_and_retries_every_call
        (st : state) (calls : list (spec_float * response)) :
  Forall (fun c =>
            (_cache st = ∅ \/
             below (elapsed (fst c) (_cache_time st)) CACHE_DURATION = false) /\
            (snd c = NetworkError \/ snd c = NotJSON)) calls ->
  run calls st = List.map (fun _ => mkOutcome (Ret (_cache st)) st 1) calls /\
  final_state calls st = st.
Proof.
  induction calls as [|[now resp] calls IH]; intros Hall.
  - split; reflexivity.
  - inversion Hall as [|? ? [Hexp Hresp] Hrest]; subst. cbn [fst snd] in *.
    assert (Hmiss : truthy (_cache st)
                    && below (elapsed now (_cache_time st)) CACHE_DURATION
                    = false).
    { destruct Hexp as [Hempty|Hexp].
      - apply truthy_false in Hempty. rewrite Hempty. reflexivity.
      - rewrite Hexp. apply andb_false_r. }
    assert (Hstep : _fetch_rates now resp st = mkOutcome (Ret (_cache st)) st 1).
    { rewrite (fetch_rates_miss _ _ _ Hmiss).
      destruct Hresp as [-> | ->]; reflexivity. }
    cbn [run final_state List.map]. rewrite Hstep. cbn [state_after].
    destruct (IH Hrest) as [-> ->]. split; reflexivity.
Qed.

(** X14. A provider that raises does so with an exception the [except]
    clause does not name, the one that left the [try] block: never
    [URLError], [JSONDecodeError] or [KeyError].  It has then made its
    one upstream request and left the globals as they were.  Conversely
    every exception the clause does not name, raised while the cache is
    empty, reaches the provider's caller. *)
Theorem X14_uncaught_exceptions_escape_and_keep_the_globals
        (p : provider) (now : spec_float) (resp : response) (st : state)
        (e : exn) :
  (returned (call p now resp st) = Raise e ->
   caught e = false /\
   fetch_upstream resp = Raise e /\
   state_after (call p now resp st) = st /\
   upstream_calls (call p now resp st) = 1%nat) /\
  (caught e = false ->
   returned (call p now (Raised e) initial) = Raise e).
Proof.
  split.
  - rewrite call_fetch_rates. cbn [returned state_after upstream_calls].
    unfold _fetch_rates. destruct (truthy (_cache st) && _); [discriminate|].
    destruct (fetch_upstream resp) as [rates|e'] eqn:E; [discriminate|].
    destruct (caught e') eqn:Hc; [discriminate|].
    cbn. intros [= <-]. repeat split; assumption.
  - intros Hc. rewrite call_fetch_rates. cbv zeta. cbn [returned].
    rewrite (fetch_rates_uncaught now (Raised e) initial e eq_refl Hc);
      [reflexivity|].
    rewrite fetch_rates_calls. reflexivity.
Qed.

Lemma quote_missing (p : provider) (d rates : gmap string json) :
  d !! coin p = None ->
  fetch_upstream (Parsed (JObj d)) = Ret rates ->
  quote rates (code p) = None.
Proof.
  intros Hmiss Hup. apply fetch_upstream_Ret in Hup.
  destruct Hup as (data & b & btc & e & eth & s & sol & [= <-]
                   & Hb & Hbtc & He & Heth & Hs & Hsol & ->).
  cbn [get] in Hb, He, Hs. unfold dict_get in Hb, He, Hs.
  unfold quote, dict_get.
  destruct p; cbn [coin code] in *.
  - rewrite Hmiss in Hb. injection Hb as <-.
    cbn [get] in Hbtc. unfold dict_get in Hbtc. rewrite lookup_empty in Hbtc.
    injection Hbtc as <-. rewrite lookup_insert_eq. reflexivity.
  - rewrite Hmiss in He. injection He as <-.
    cbn [get] in Heth. unfold dict_get in Heth. rewrite lookup_empty in Heth.
    injection Heth as <-.
    rewrite lookup_insert_ne by discriminate.
    rewrite lookup_insert_eq. reflexivity.
  - rewrite Hmiss in Hs. injection Hs as <-.
    cbn [get] in Hsol. unfold dict_get in Hsol. rewrite lookup_empty in Hsol.
    injection Hsol as <-.
    rewrite !lookup_insert_ne by discriminate.
    rewrite lookup_insert_eq. reflexivity.
Qed.

(** X15. An answer that is a JSON object without a provider's coin
    counts as a successful fetch: the provider returns [None], and it
    keeps returning [None] without an upstream request at every later
    reading that the guard still finds less than [CACHE_DURATION] after
    this one, whatever rate was cached before. *)
Theorem X15_missing_coin_is_stored_as_unavailable
        (p : provider) (d rates : gmap string json) (now : spec_float) (st : state) :
  d !! coin p = None ->
  fetch_upstream (Parsed (JObj d)) = Ret rates ->
  upstream_calls (call p now (Parsed (JObj d)) st) = 1%nat ->
  returned (call p now (Parsed (JObj d)) st) = Ret None /\
  (forall (now' : spec_float) (resp' : response),
     below (elapsed now' now) CACHE_DURATION = true ->
     call p now' resp' (state_after (call p now (Parsed (JObj d)) st))
     = mkOutcome (Ret None) (state_after (call p now (Parsed (JObj d)) st)) 0).
Proof.
  intros Hmiss Hup Hcalls.
  pose proof (quote_missing p d rates Hmiss Hup) as Hq.
  rewrite call_fetch_rates in Hcalls |- *. cbn [upstream_calls] in Hcalls.
  cbv zeta. cbn [returned state_after].
  rewrite (fetch_rates_success _ _ _ _ Hcalls Hup). cbn [returned state_after].
  split; [cbn; rewrite Hq; reflexivity|].
  intros now' resp' Hlt. rewrite call_fetch_rates. cbv zeta.
  rewrite fetch_rates_hit;
    [|exact (fetch_upstream_truthy _ _ Hup)|exact Hlt].
  cbn. rewrite Hq. reflexivity.
Qed.

End CryptoMore.

(** X13 on a fresh module: two calls while upstream is down. *)
Lemma X13_witness :
  Crypto.run [(Crypto.seconds 10, Crypto.NetworkError);
   (Crypto.seconds 20, Crypto.NotJSON)]
             Crypto.initial
  = [Crypto.mkOutcome (Py.Ret ∅) Crypto.initial 1;
     Crypto.mkOutcome (Py.Ret ∅) Crypto.initial 1] /\
  Crypto.final_state [(Crypto.seconds 10, Crypto.NetworkError);
   (Crypto.seconds 20, Crypto.NotJSON)]
                     Crypto.initial
  = Crypto.initial.
Proof.
  apply (X13_failed_refresh_serves_cache_and_retries_every_call
           Crypto.initial
           [(Crypto.seconds 10, Crypto.NetworkError);
   (Crypto.seconds 20, Crypto.NotJSON)]).
  constructor; [split; left; reflexivity|].
  constructor; [split; [left|right]; reflexivity|].
  constructor.
Defined.

(** X14 on a fresh module, when reading the response times out. *)
Lemma X14_witness :
  Crypto.caught Py.TimeoutError = false /\
  Crypto.returned
    (Crypto.call Crypto.SOL (Crypto.seconds 5)
       (Crypto.Raised Py.TimeoutError) Crypto.initial)
  = Py.Raise Py.TimeoutError /\
  Crypto.state_after
    (Crypto.call Crypto.SOL (Crypto.seconds 5)
       (Crypto.Raised Py.TimeoutError) Crypto.initial)
  = Crypto.initial.
Proof.
  pose proof (X14_uncaught_exceptions_escape_and_keep_the_globals
                Crypto.SOL (Crypto.seconds 5)
                (Crypto.Raised Py.TimeoutError) Crypto.initial
                Py.TimeoutError) as [Hraise Hescape].
  specialize (Hescape eq_refl).
  destruct (Hraise Hescape) as (Hc & _ & Hst & _).
  split; [exact Hc|]. split; [exact Hescape|exact Hst].
Defined.

(** X15 with BTC cached at 50000 since time 100, when the answer at time
    200 quotes only ethereum. *)
Lemma X15_witness :
  let st :=
    Crypto.state_after
      (Crypto._fetch_rates (Crypto.seconds 100)
         (Crypto.Parsed (Crypto.prices 50000 3000 100)) Crypto.initial) in
  let d : gmap string Crypto.json := {[ "ethereum" := Crypto.price 3100 ]} in
  Crypto.quote (Crypto._cache st) "BTC"
    = Some (Crypto.JNum (Py.PyInt 50000), Py.lit "USD") /\
  Crypto.returned
    (Crypto.call Crypto.BTC (Crypto.seconds 200)
       (Crypto.Parsed (Crypto.JObj d)) st)
    = Py.Ret None.
Proof.
  cbv zeta. split; [vm_compute; reflexivity|].
  refine (proj1 (X15_missing_coin_is_stored_as_unavailable
                   Crypto.BTC {[ "ethereum" := Crypto.price 3100 ]}
                   (<["BTC" := Crypto.JNull]>
                      (<["ETH" := Crypto.JNum (Py.PyInt 3100)]>
                         (<["SOL" := Crypto.JNull]> ∅)))
                   (Crypto.seconds 200) _ _ _ _)).
  - vm_compute. reflexivity.
  - vm_compute. reflexivity.
  - vm_compute. reflexivity.
Defined.
